(** * Verification of the LLM request layer of AI_Engineer_Bootcamp

    Shallow embedding of [src/utils/token_utils.py] (token counting,
    context fitting, usage reconciliation) and of the retry loop and
    provider shims of [src/utils/llm_client.py].

    Python dictionaries are stdpp [gmap]s with [string] keys; Python
    integers are [Z]; [None] is an explicit constructor or [option].
    The tiktoken encodings are an abstract record [Encoding] obtained
    from [get_encoding] (a section variable standing for
    [tiktoken.get_encoding]); every theorem holds for every tokenizer. *)

From stdpp Require Import base gmap strings list fin_maps.
From Stdlib Require Import ZArith Ascii.
From Stdlib Require QArith_base.
From Stdlib Require String.

(* ------------------------------------------------------------------ *)
(** ** Python string helpers *)

(** [str.lower()] on ASCII text. *)
Definition ascii_lower (c : ascii) : ascii :=
  let n := nat_of_ascii c in
  if (65 <=? n)%nat && (n <=? 90)%nat then ascii_of_nat (n + 32) else c.

Fixpoint lower (s : string) : string :=
  match s with
  | EmptyString => EmptyString
  | String c s' => String (ascii_lower c) (lower s')
  end.

(** Python's [needle in hay] on strings. *)
Fixpoint contains (needle hay : string) : bool :=
  String.prefix needle hay ||
  match hay with
  | EmptyString => false
  | String _ hay' => contains needle hay'
  end.

(** Python's [l[:k]] for an integer [k]: a negative [k] counts from the
    end of the list. *)
Definition py_slice_to {A} (l : list A) (k : Z) : list A :=
  if (0 <=? k)%Z then firstn (Z.to_nat k) l
  else firstn (length l - Z.to_nat (- k)) l.

(** [d.get(k, default)] on a dictionary. *)
Definition py_get {V} (d : gmap string V) (k : string) (dflt : V) : V :=
  match d !! k with Some v => v | None => dflt end.

(* ------------------------------------------------------------------ *)
(** ** Data model *)

Inductive Provider := openai | google | groq.

(** A tiktoken encoding: [enc.encode(text, disallowed_special=())] and
    [enc.decode(tokens)]. *)
Record Encoding := {
  encode : string -> list Z;
  decode : list Z -> string }.

(** A message is a [dict[str, str]]. *)
Abbreviation Message := (gmap string string) (only parsing).

(** The metadata dictionary returned by [fit_within_context]; a field is
    [None] when the key is absent from the returned dict. *)
Record FitMeta := {
  fm_overflow : bool;
  fm_original_tokens : option Z;
  fm_strategy : option string;
  fm_messages_removed : option Z;
  fm_action_required : option string }.

Definition truncation_marker : string := "... [truncated]".

Section Tokens.

(** [tiktoken.get_encoding(name)]. *)
Variable get_encoding : string -> Encoding.

(** [pick_encoding(provider, model)]; the [try/except] around the
    o200k lookup only guards a failing tiktoken installation. *)
Definition pick_encoding (provider : Provider) (model : string) : Encoding :=
  match provider with
  | openai =>
      if existsb (fun x => contains x (lower model))
           ["gpt-4o"; "gpt-4"; "o3"; "o1"]
      then get_encoding "o200k_base"
      else get_encoding "cl100k_base"
  | _ => get_encoding "o200k_base"
  end.

(** [count_text_tokens]. *)
Definition count_text_tokens (text : string) (provider : Provider)
    (model : string) : Z :=
  match text with
  | EmptyString => 0
  | _ => Z.of_nat (length (encode (pick_encoding provider model) text))
  end.

(** One iteration of the message loop of [count_messages_tokens]:
    4 tokens of role overhead plus the encoded content. *)
Definition message_tokens (enc : Encoding) (msg : Message) : Z :=
  4 + Z.of_nat (length (encode enc (py_get msg "content" ""))).

Fixpoint input_tokens_of (enc : Encoding) (messages : list Message) : Z :=
  match messages with
  | [] => 0
  | msg :: rest => message_tokens enc msg + input_tokens_of enc rest
  end.

Fixpoint context_tokens_of (enc : Encoding) (ctxs : list string) : Z :=
  match ctxs with
  | [] => 0
  | ctx :: rest => Z.of_nat (length (encode enc ctx)) + context_tokens_of enc rest
  end.

(** [if context_strs:] -- [None] and the empty list count nothing. *)
Definition context_tokens_opt (enc : Encoding) (context_strs : option (list string)) : Z :=
  match context_strs with
  | Some ctxs => context_tokens_of enc ctxs
  | None => 0
  end.

(** [count_messages_tokens]: the returned dict. *)
Definition count_messages_tokens (messages : list Message) (provider : Provider)
    (model : string) (context_strs : option (list string)) : gmap string Z :=
  let enc := pick_encoding provider model in
  let input_tokens := input_tokens_of enc messages in
  let context_tokens := context_tokens_opt enc context_strs in
  let overhead := 3%Z in
  <["input_tokens" := input_tokens]>
  (<["context_tokens" := context_tokens]>
  (<["estimated_total" := (input_tokens + context_tokens + overhead)%Z]> ∅)).

(** [estimate_prompt_tokens]: [counts["estimated_total"]] (the key is
    always present, see [estimate_prompt_tokens_eq]). *)
Definition estimate_prompt_tokens (messages : list Message) (provider : Provider)
    (model : string) (context_strs : option (list string)) : Z :=
  match count_messages_tokens messages provider model context_strs !! "estimated_total" with
  | Some t => t
  | None => 0
  end.

(** [m.get("role") == "system"]. *)
Definition is_system (m : Message) : bool :=
  match m !! "role" with
  | Some r => String.eqb r "system"
  | None => false
  end.

(** The [while] loop of the truncate strategy: pop the oldest
    non-system message while more than one remains and the estimate is
    over budget. Recursion follows [other_msgs.pop(0)]. *)
Fixpoint drop_oldest (provider : Provider) (model : string) (max_context_tokens : Z)
    (context_strs : option (list string)) (system_msgs : list Message)
    (other_msgs : list Message) : list Message :=
  match other_msgs with
  | [] => []
  | _ :: rest =>
      if (1 <? length other_msgs)%nat &&
         (max_context_tokens <? estimate_prompt_tokens (system_msgs ++ other_msgs)
                                   provider model context_strs)%Z
      then drop_oldest provider model max_context_tokens context_strs system_msgs rest
      else other_msgs
  end.

(** The content truncation of the last remaining non-system message
    (lines 224-242). *)
Definition truncate_last (provider : Provider) (model : string) (max_context_tokens : Z)
    (context_strs : option (list string)) (system_msgs other_msgs : list Message)
    : list Message :=
  if (max_context_tokens <? estimate_prompt_tokens (system_msgs ++ other_msgs)
                              provider model context_strs)%Z
     && negb (bool_decide (other_msgs = []))
  then
    match last other_msgs with
    | Some last_msg =>
        let enc := pick_encoding provider model in
        let overhead := (4 * (Z.of_nat (length system_msgs) + 1) + 3)%Z in
        let available_tokens := (max_context_tokens - overhead)%Z in
        let content := py_get last_msg "content" "" in
        let tokens := encode enc content in
        if (available_tokens <? Z.of_nat (length tokens))%Z then
          let truncated_content := decode enc (py_slice_to tokens available_tokens) in
          removelast other_msgs ++
            [<["content" := truncated_content +:+ truncation_marker]> last_msg]
        else other_msgs
    | None => other_msgs
    end
  else other_msgs.

(** [fit_within_context]. *)
Definition fit_within_context (messages : list Message) (provider : Provider)
    (model : string) (max_context_tokens : Z) (strategy : string)
    (context_strs : option (list string))
    : list Message * option (list string) * FitMeta :=
  let current_tokens := estimate_prompt_tokens messages provider model context_strs in
  if (current_tokens <=? max_context_tokens)%Z then
    (messages, context_strs,
     {| fm_overflow := false; fm_original_tokens := Some current_tokens;
        fm_strategy := None; fm_messages_removed := None;
        fm_action_required := None |})
  else if String.eqb strategy "truncate" then
    let adjusted := messages in
    let system_msgs := List.filter is_system adjusted in
    let other_msgs0 := List.filter (fun m => negb (is_system m)) adjusted in
    let other_msgs1 :=
      drop_oldest provider model max_context_tokens context_strs system_msgs other_msgs0 in
    let other_msgs :=
      truncate_last provider model max_context_tokens context_strs system_msgs other_msgs1 in
    (system_msgs ++ other_msgs, context_strs,
     {| fm_overflow := true; fm_original_tokens := Some current_tokens;
        fm_strategy := Some "truncate";
        fm_messages_removed :=
          Some (Z.of_nat (length messages) - Z.of_nat (length system_msgs)
                - Z.of_nat (length other_msgs))%Z;
        fm_action_required := None |})
  else if String.eqb strategy "summarize" then
    (messages, context_strs,
     {| fm_overflow := true; fm_original_tokens := Some current_tokens;
        fm_strategy := Some "summarize"; fm_messages_removed := None;
        fm_action_required := Some "Use overflow_summarize prompt" |})
  else
    (messages, context_strs,
     {| fm_overflow := false; fm_original_tokens := None;
        fm_strategy := None; fm_messages_removed := None;
        fm_action_required := None |}).

End Tokens.

(** A byte-level encoding (one token per byte, the merge-free limit of a
    byte-pair encoding), used for concrete test inputs. *)
Definition byte_encoding : Encoding := {|
  encode s := map (fun a => Z.of_nat (nat_of_ascii a)) (String.list_ascii_of_string s);
  decode ts := String.string_of_list_ascii (map (fun z => ascii_of_nat (Z.to_nat z)) ts) |}.

Definition byte_tiktoken (_ : string) : Encoding := byte_encoding.

Definition mk_msg (role content : string) : Message :=
  <["role" := role]> (<["content" := content]> ∅).

(* ------------------------------------------------------------------ *)
(** ** Usage reconciliation ([reconcile_usage]) *)

(** The values of a provider usage dict: an [int] or [None]. *)
Inductive PyVal := PyInt (n : Z) | PyNone.

(** [x or 0] for an [int] or [None]. *)
Definition py_or_zero (v : PyVal) : Z :=
  match v with PyInt n => n | PyNone => 0 end.

(** The dict returned by [reconcile_usage]. *)
Record UsageRecord := {
  input_tokens_est : Z;
  context_tokens_est : Z;
  total_est : Z;
  prompt_tokens_actual : PyVal;
  completion_tokens_actual : PyVal;
  total_tokens_actual : PyVal }.

Definition reconcile_usage (estimate : gmap string Z)
    (provider_usage : option (gmap string PyVal)) : UsageRecord :=
  let input_est := py_get estimate "input_tokens" 0%Z in
  let context_est := py_get estimate "context_tokens" 0%Z in
  let total := py_get estimate "estimated_total" 0%Z in
  let unset := {| input_tokens_est := input_est; context_tokens_est := context_est;
                  total_est := total; prompt_tokens_actual := PyNone;
                  completion_tokens_actual := PyNone; total_tokens_actual := PyNone |} in
  match provider_usage with
  | None => unset
  | Some usage =>
      (* [if provider_usage:] -- an empty dict is falsy *)
      if bool_decide (usage = ∅) then unset
      else match usage !! "prompt_tokens" with
      | Some p =>
          {| input_tokens_est := input_est; context_tokens_est := context_est;
             total_est := total; prompt_tokens_actual := p;
             completion_tokens_actual := py_get usage "completion_tokens" (PyInt 0);
             total_tokens_actual := py_get usage "total_tokens" (PyInt 0) |}
      | None =>
          match usage !! "promptTokenCount" with
          | Some _ =>
              let p := py_or_zero (py_get usage "promptTokenCount" PyNone) in
              let c := py_or_zero (py_get usage "candidatesTokenCount" PyNone) in
              {| input_tokens_est := input_est; context_tokens_est := context_est;
                 total_est := total; prompt_tokens_actual := PyInt p;
                 completion_tokens_actual := PyInt c;
                 total_tokens_actual := PyInt (p + c) |}
          | None => unset
          end
      end
  end.

(* ------------------------------------------------------------------ *)
(** ** Exceptions and provider dispatch *)

(** A raised exception: its class name and [str(e)], or the
    [ValueError ... from e] of the context-overflow path. *)
Inductive Exn :=
  | PyExc (cls msg : string)
  | ChainedValueError (msg : string) (cause : Exn).

Definition exn_str (e : Exn) : string :=
  match e with PyExc _ m => m | ChainedValueError m _ => m end.

(** The dict [{"text", "usage", "raw"}] built by the provider shims
    ([raw] is the SDK object and is not modelled); [reply_text] is
    [None] when the value is Python's [None]. *)
Record ProviderReply := {
  reply_text : option string;
  reply_usage : gmap string PyVal }.

(** The fields of an OpenAI or Groq chat completion read by the shims:
    [choices[i].message.content] and [usage]. *)
Record ChatCompletion := {
  cc_choices : list (option string);
  cc_usage : option (Z * Z * Z) }.

(** The fields of a Gemini [GenerateContentResponse] read by the shim:
    [response.text] (an [Optional[str]] in the SDK) and
    [usage_metadata]'s two counts. *)
Record GenerateContentResponse := {
  gr_text : option string;
  gr_usage_metadata : option (option Z * option Z) }.

(** [s or ""] for an [Optional[str]]. *)
Definition py_str_or_empty (s : option string) : string :=
  match s with Some x => x | None => "" end.

Definition py_opt_int (v : option Z) : PyVal :=
  match v with Some n => PyInt n | None => PyNone end.

(** The [usage] dict of the OpenAI and Groq shims. *)
Definition openai_usage_dict (u : option (Z * Z * Z)) : gmap string PyVal :=
  let '(p, c, t) :=
    match u with
    | Some (p, c, t) => (PyInt p, PyInt c, PyInt t)
    | None => (PyNone, PyNone, PyNone)
    end in
  <["prompt_tokens" := p]> (<["completion_tokens" := c]> (<["total_tokens" := t]> ∅)).

Definition index_error : Exn := PyExc "IndexError" "list index out of range".

(** [_call_openai] after [self.client.chat.completions.create(...)]
    has returned [api] (or raised). *)
Definition call_openai (api : Exn + ChatCompletion) : Exn + ProviderReply :=
  match api with
  | inl e => inl e
  | inr response =>
      match cc_choices response with
      | [] => inl index_error
      | content :: _ =>
          inr {| reply_text := Some (py_str_or_empty content);
                 reply_usage := openai_usage_dict (cc_usage response) |}
      end
  end.

(** [_call_groq]: same response handling as [_call_openai]. *)
Definition call_groq (api : Exn + ChatCompletion) : Exn + ProviderReply :=
  match api with
  | inl e => inl e
  | inr response =>
      match cc_choices response with
      | [] => inl index_error
      | content :: _ =>
          inr {| reply_text := Some (py_str_or_empty content);
                 reply_usage := openai_usage_dict (cc_usage response) |}
      end
  end.

(** A Gemini [types.Content(role=..., parts=[text])]. *)
Record GContent := { gc_role : string; gc_text : string }.

(** The conversion loop of [_call_google]: [msg["role"]] and
    [msg["content"]] raise [KeyError] when missing; the last system
    message becomes the system instruction; other roles are skipped. *)
Fixpoint to_gemini (messages : list Message) (system_instruction : option string)
    : Exn + (option string * list GContent) :=
  match messages with
  | [] => inr (system_instruction, [])
  | msg :: rest =>
      match msg !! "role" with
      | None => inl (PyExc "KeyError" "'role'")
      | Some role =>
          match msg !! "content" with
          | None => inl (PyExc "KeyError" "'content'")
          | Some content =>
              let sys' := if String.eqb role "system" then Some content
                          else system_instruction in
              let here :=
                if String.eqb role "user" then [ {| gc_role := "user"; gc_text := content |} ]
                else if String.eqb role "assistant"
                then [ {| gc_role := "model"; gc_text := content |} ]
                else [] in
              match to_gemini rest sys' with
              | inl e => inl e
              | inr (si, cs) => inr (si, here ++ cs)
              end
          end
      end
  end.

(** [_call_google] after [generate_content] has returned [api]. *)
Definition google_reply (response : GenerateContentResponse) : ProviderReply :=
  {| reply_text := gr_text response;
     reply_usage :=
       match gr_usage_metadata response with
       | Some (p, c) =>
           <["promptTokenCount" := py_opt_int p]>
           (<["candidatesTokenCount" := py_opt_int c]> ∅)
       | None => ∅
       end |}.

(** The remote SDK calls, per attempt; the Gemini call receives the
    converted system instruction and contents. *)
Record Backend := {
  openai_create : list Message -> nat -> Exn + ChatCompletion;
  google_generate : option string * list GContent -> nat -> Exn + GenerateContentResponse;
  groq_create : list Message -> nat -> Exn + ChatCompletion }.

Definition call_google (b : Backend) (messages : list Message) (attempt : nat)
    : Exn + ProviderReply :=
  match to_gemini messages None with
  | inl e => inl e
  | inr converted =>
      match google_generate b converted attempt with
      | inl e => inl e
      | inr response => inr (google_reply response)
      end
  end.

(** The provider switch inside the [try] block of [chat]. *)
Definition dispatch (provider : Provider) (b : Backend) (messages : list Message)
    (attempt : nat) : Exn + ProviderReply :=
  match provider with
  | openai => call_openai (openai_create b messages attempt)
  | google => call_google b messages attempt
  | groq => call_groq (groq_create b messages attempt)
  end.

(* ------------------------------------------------------------------ *)
(** ** The retry loop of [LLMClient.chat] *)

(** [_is_retryable_error]. *)
Definition is_retryable_error (e : Exn) : bool :=
  let error_str := lower (exn_str e) in
  if contains "429" error_str || contains "rate limit" error_str then true
  else if existsb (fun x => contains x error_str) ["500"; "502"; "503"; "504"; "server error"]
  then true
  else if contains "timeout" error_str || contains "timed out" error_str then true
  else if contains "context" error_str &&
          (contains "length" error_str || contains "too long" error_str)
  then true
  else false.

(** The context-overflow test of lines 228-232 (without the
    [overflow_handled] conjunct). *)
Definition is_context_overflow (e : Exn) : bool :=
  let error_str := lower (exn_str e) in
  contains "context" error_str &&
  (contains "length" error_str || contains "too long" error_str).

Definition overflow_message : string :=
  "Context window exceeded. Use overflow_summarize.v1 prompt.".

Record CallMeta := {
  meta_retry_count : Z;
  meta_backoff_ms_total : Z;
  meta_overflow_handled : bool }.

(** The dict returned by [chat] ([latency_ms] is wall-clock time and
    [raw] the SDK object; neither is modelled). *)
Record CallOutcome := {
  out_text : option string;
  out_usage : UsageRecord;
  out_meta : CallMeta }.

Inductive ChatResult :=
  | Returned (out : CallOutcome)
  | Raised (e : Exn).

Section Retry.

Variable max_retries : Z.
(** [int(self._calculate_backoff(attempt) * 1000)]: random jitter, so a
    parameter of the model. *)
Variable backoff_ms : nat -> Z.
(** One provider attempt ([self._call_<provider>(messages, ...)]) at a
    given attempt index. *)
Variable call : nat -> Exn + ProviderReply.
Variable token_counts : gmap string Z.
Variable overflow_handled : bool.

(** [for attempt in range(...)] with [fuel] iterations left, when every
    [int(backoff_sec * 1000)] and [time.sleep(backoff_sec)] of a retry
    succeeds (as they do for a finite, non-negative backoff); the loop
    with a failing backoff is [retry_loop_sleep] below. The list
    returned is the sequence of attempt indices at which the provider
    was called. *)
Fixpoint retry_loop (fuel attempt : nat) (retry_count total_backoff_ms : Z)
    (last_error : option Exn) : list nat * ChatResult :=
  match fuel with
  | O =>
      ([], Raised (match last_error with
                   | Some e => e
                   | None => PyExc "Exception" "Unknown error in LLM call"
                   end))
  | S fuel' =>
      match call attempt with
      | inr response =>
          ([attempt],
           Returned {| out_text := reply_text response;
                       out_usage := reconcile_usage token_counts (Some (reply_usage response));
                       out_meta := {| meta_retry_count := retry_count;
                                      meta_backoff_ms_total := total_backoff_ms;
                                      meta_overflow_handled := overflow_handled |} |})
      | inl e =>
          if (Z.of_nat attempt <? max_retries)%Z && is_retryable_error e then
            let '(trace, r) :=
              retry_loop fuel' (S attempt) (retry_count + 1)
                         (total_backoff_ms + backoff_ms attempt) (Some e) in
            (attempt :: trace, r)
          else if is_context_overflow e && negb overflow_handled then
            ([attempt], Raised (ChainedValueError overflow_message e))
          else ([attempt], Raised e)
      end
  end.

(** The loop as started by [chat]: [range(self.max_retries + 1)] is
    empty when the bound is not positive. *)
Definition run_retry_loop : list nat * ChatResult :=
  retry_loop (Z.to_nat (max_retries + 1)) 0 0 0 None.

(** The retry branch in full: [backoff_ms = int(backoff_sec * 1000)]
    and [time.sleep(backoff_sec)] may raise (a negative backoff makes
    [time.sleep] raise [ValueError], an infinite or NaN one makes [int]
    raise), and the exception leaves the [except] block, hence [chat].
    [backoff attempt] is [inl] of that exception, or [inr] of
    [backoff_ms] when both steps succeed. *)
Variable backoff : nat -> Exn + Z.

Fixpoint retry_loop_sleep (fuel attempt : nat) (retry_count total_backoff_ms : Z)
    (last_error : option Exn) : list nat * ChatResult :=
  match fuel with
  | O =>
      ([], Raised (match last_error with
                   | Some e => e
                   | None => PyExc "Exception" "Unknown error in LLM call"
                   end))
  | S fuel' =>
      match call attempt with
      | inr response =>
          ([attempt],
           Returned {| out_text := reply_text response;
                       out_usage := reconcile_usage token_counts (Some (reply_usage response));
                       out_meta := {| meta_retry_count := retry_count;
                                      meta_backoff_ms_total := total_backoff_ms;
                                      meta_overflow_handled := overflow_handled |} |})
      | inl e =>
          if (Z.of_nat attempt <? max_retries)%Z && is_retryable_error e then
            match backoff attempt with
            | inl s => ([attempt], Raised s)
            | inr ms =>
                let '(trace, r) :=
                  retry_loop_sleep fuel' (S attempt) (retry_count + 1)
                                   (total_backoff_ms + ms) (Some e) in
                (attempt :: trace, r)
            end
          else if is_context_overflow e && negb overflow_handled then
            ([attempt], Raised (ChainedValueError overflow_message e))
          else ([attempt], Raised e)
      end
  end.

Definition run_retry_loop_sleep : list nat * ChatResult :=
  retry_loop_sleep (Z.to_nat (max_retries + 1)) 0 0 0 None.

End Retry.

(** The client's configuration ([self.provider], [self.model], ...). *)
Record LLMClient := {
  client_provider : Provider;
  client_model : string;
  client_max_retries : Z;
  client_hard_prompt_cap : option Z }.

(** The pre-flight part of [chat]: token estimation and the hard
    prompt cap, returning the messages and context sent, the
    [overflow_handled] flag and the recomputed counts. *)
Definition chat_preflight (get_encoding : string -> Encoding) (c : LLMClient)
    (messages : list Message) (context_strs : option (list string))
    : list Message * option (list string) * bool * gmap string Z :=
  let provider := client_provider c in
  let model := client_model c in
  let token_counts := count_messages_tokens get_encoding messages provider model context_strs in
  match client_hard_prompt_cap c with
  | Some cap =>
      if negb (cap =? 0)%Z &&
         (cap <? py_get token_counts "estimated_total" 0)%Z then
        let '(messages', context_strs', fit_meta) :=
          fit_within_context get_encoding messages provider model cap "truncate" context_strs in
        (messages', context_strs', fm_overflow fit_meta,
         count_messages_tokens get_encoding messages' provider model context_strs')
      else (messages, context_strs, false, token_counts)
  | None => (messages, context_strs, false, token_counts)
  end.

(** [LLMClient.chat]: the returned trace lists the attempts made. *)
Definition chat (get_encoding : string -> Encoding) (c : LLMClient) (b : Backend)
    (backoff_ms : nat -> Z) (messages : list Message)
    (context_strs : option (list string)) : list nat * ChatResult :=
  let '(messages', _, overflow_handled, token_counts) :=
    chat_preflight get_encoding c messages context_strs in
  run_retry_loop (client_max_retries c) backoff_ms
    (dispatch (client_provider c) b messages') token_counts overflow_handled.

(** [LLMClient.chat] with the backoff computation and sleep of each
    retry able to raise ([retry_loop_sleep]). *)
Definition chat_sleep (get_encoding : string -> Encoding) (c : LLMClient) (b : Backend)
    (backoff : nat -> Exn + Z) (messages : list Message)
    (context_strs : option (list string)) : list nat * ChatResult :=
  let '(messages', _, overflow_handled, token_counts) :=
    chat_preflight get_encoding c messages context_strs in
  run_retry_loop_sleep (client_max_retries c)
    (dispatch (client_provider c) b messages') token_counts overflow_handled backoff.

(* ------------------------------------------------------------------ *)
(** ** [fit_within_context] over a heap of Python objects *)

(** To talk about object identity and mutation, the arguments of
    [fit_within_context] live in a heap: the messages list and the
    context list are list objects, each message a dict object. *)
Abbreviation loc := positive (only parsing).

(** An element of a Python list: a reference to an object, or an
    (immutable) string. *)
Inductive PyItem := ItemRef (l : loc) | ItemStr (s : string).

Inductive PyObj :=
  | PyList (items : list PyItem)
  | PyDict (entries : gmap string string).

Abbreviation Heap := (gmap positive PyObj) (only parsing).

(** Allocation of a new object at a fresh location. *)
Definition alloc (h : Heap) (o : PyObj) : Heap * loc :=
  let l := fresh (dom h) in (<[l := o]> h, l).

Definition list_items (h : Heap) (l : loc) : option (list PyItem) :=
  match h !! l with Some (PyList items) => Some items | _ => None end.

Definition read_dict (h : Heap) (l : loc) : option Message :=
  match h !! l with Some (PyDict d) => Some d | _ => None end.

(** Reading a list of message dicts; [None] when an element is not a
    dict (the [msg.get] of the source would raise). *)
Definition read_items (h : Heap) (items : list PyItem) : option (list Message) :=
  mapM (fun it => match it with ItemRef l => read_dict h l | ItemStr _ => None end) items.

Definition read_messages (h : Heap) (l : loc) : option (list Message) :=
  items ← list_items h l; read_items h items.

Definition read_strs (h : Heap) (l : loc) : option (list string) :=
  items ← list_items h l;
  mapM (fun it => match it with ItemStr s => Some s | ItemRef _ => None end) items.

(** [context_strs] is [None] or a list object. *)
Definition read_context (h : Heap) (cl : option loc) : option (option (list string)) :=
  match cl with
  | None => Some None
  | Some l => ctx ← read_strs h l; Some (Some ctx)
  end.

Definition item_is_system (h : Heap) (it : PyItem) : bool :=
  match it with
  | ItemRef l => match read_dict h l with Some m => is_system m | None => false end
  | ItemStr _ => false
  end.

Section FitHeap.

Variable get_encoding : string -> Encoding.
Variables (provider : Provider) (model : string) (max_context_tokens : Z).
Variable context_strs : option (list string).

(** The [while] loop, popping index 0 of the list object [ol]. The fuel
    is the initial length of [ol]: the loop pops at most that many
    times minus one, so the fuel never runs out first. *)
Fixpoint pop_loop_heap (fuel : nat) (h : Heap) (sl ol : loc) : option Heap :=
  match fuel with
  | O => Some h
  | S fuel' =>
      items ← list_items h ol;
      if (1 <? length items)%nat then
        sys ← read_messages h sl;
        others ← read_messages h ol;
        if (max_context_tokens <? estimate_prompt_tokens get_encoding (sys ++ others)
                                    provider model context_strs)%Z
        then pop_loop_heap fuel' (<[ol := PyList (tail items)]> h) sl ol
        else Some h
      else Some h
  end.

(** Lines 224-242: a fresh dict replaces the last element of [ol]. *)
Definition truncate_last_heap (h : Heap) (sl ol : loc) : option Heap :=
  sys ← read_messages h sl;
  items ← list_items h ol;
  others ← read_items h items;
  if (max_context_tokens <? estimate_prompt_tokens get_encoding (sys ++ others)
                              provider model context_strs)%Z
     && negb (bool_decide (items = []))
  then
    match last items with
    | Some (ItemRef dl) =>
        last_msg ← read_dict h dl;
        let enc := pick_encoding get_encoding provider model in
        let overhead := (4 * (Z.of_nat (length sys) + 1) + 3)%Z in
        let available_tokens := (max_context_tokens - overhead)%Z in
        let tokens := encode enc (py_get last_msg "content" "") in
        if (available_tokens <? Z.of_nat (length tokens))%Z then
          let truncated_content := decode enc (py_slice_to tokens available_tokens) in
          let '(h', nl) :=
            alloc h (PyDict (<["content" := truncated_content +:+ truncation_marker]> last_msg)) in
          Some (<[ol := PyList (removelast items ++ [ItemRef nl])]> h')
        else Some h
    | _ => None
    end
  else Some h.

End FitHeap.

(** [fit_within_context] on a heap: the messages list object [ml] and
    the optional context list object [cl]. Returns the final heap, the
    returned messages list, the returned context list and the
    metadata; [None] when the source would raise. The temporary list of
    each [system_msgs + other_msgs] passed to the estimator is not
    allocated: it is unreachable afterwards. *)
Definition fit_within_context_heap (get_encoding : string -> Encoding) (h : Heap)
    (ml : loc) (provider : Provider) (model : string) (max_context_tokens : Z)
    (strategy : string) (cl : option loc)
    : option (Heap * loc * option loc * FitMeta) :=
  messages ← read_messages h ml;
  context_strs ← read_context h cl;
  let current_tokens := estimate_prompt_tokens get_encoding messages provider model context_strs in
  if (current_tokens <=? max_context_tokens)%Z then
    Some (h, ml, cl,
          {| fm_overflow := false; fm_original_tokens := Some current_tokens;
             fm_strategy := None; fm_messages_removed := None;
             fm_action_required := None |})
  else if String.eqb strategy "truncate" then
    items ← list_items h ml;
    (* adjusted = messages.copy() *)
    let '(h1, al) := alloc h (PyList items) in
    adjusted ← list_items h1 al;
    let sys_items := List.filter (item_is_system h1) adjusted in
    let other_items := List.filter (fun it => negb (item_is_system h1 it)) adjusted in
    let '(h2, sl) := alloc h1 (PyList sys_items) in
    let '(h3, ol) := alloc h2 (PyList other_items) in
    h4 ← pop_loop_heap get_encoding provider model max_context_tokens context_strs
           (length other_items) h3 sl ol;
    h5 ← truncate_last_heap get_encoding provider model max_context_tokens context_strs h4 sl ol;
    sys_final ← list_items h5 sl;
    others_final ← list_items h5 ol;
    let '(h6, rl) := alloc h5 (PyList (sys_final ++ others_final)) in
    Some (h6, rl, cl,
          {| fm_overflow := true; fm_original_tokens := Some current_tokens;
             fm_strategy := Some "truncate";
             fm_messages_removed :=
               Some (Z.of_nat (length messages) - Z.of_nat (length sys_final)
                     - Z.of_nat (length others_final))%Z;
             fm_action_required := None |})
  else if String.eqb strategy "summarize" then
    Some (h, ml, cl,
          {| fm_overflow := true; fm_original_tokens := Some current_tokens;
             fm_strategy := Some "summarize"; fm_messages_removed := None;
             fm_action_required := Some "Use overflow_summarize prompt" |})
  else
    Some (h, ml, cl,
          {| fm_overflow := false; fm_original_tokens := None;
             fm_strategy := None; fm_messages_removed := None;
             fm_action_required := None |}).

(* ------------------------------------------------------------------ *)
(** ** Request parameters of the provider shims *)

(** A value loaded by [yaml.safe_load] or passed as a keyword argument:
    a mapping is an association list (the keys of a loaded mapping are
    distinct, so the first binding is the one Python sees); a float is
    its rational value. *)
#[warnings="-register-all"]
Inductive YVal :=
  | YNone
  | YBool (b : bool)
  | YInt (n : Z)
  | YFloat (q : QArith_base.Q)
  | YStr (s : string)
  | YList (l : list YVal)
  | YDict (d : list (string * YVal)).

(** [d[key]] / [key in d] on a mapping with string keys. *)
Fixpoint ydict_lookup (d : list (string * YVal)) (key : string) : option YVal :=
  match d with
  | [] => None
  | (k, v) :: d' => if String.eqb k key then Some v else ydict_lookup d' key
  end.

(** Python truthiness ([if v:], [not v]). *)
Definition py_truthy (v : YVal) : bool :=
  match v with
  | YNone => false
  | YBool b => b
  | YInt n => negb (n =? 0)%Z
  | YFloat q => negb (QArith_base.Qeq_bool q (QArith_base.inject_Z 0))
  | YStr s => negb (String.eqb s "")
  | YList l => match l with [] => false | _ => true end
  | YDict d => match d with [] => false | _ => true end
  end.

(** A keyword argument of an SDK call: the messages array or a plain
    value. *)
Inductive Arg := ArgMessages (ms : list Message) | ArgVal (v : YVal).

(** [any(self.model.startswith(prefix) for prefix in ["o1-", "o3-"])]. *)
Definition is_reasoning_model (model : string) : bool :=
  existsb (fun prefix => String.prefix prefix model) ["o1-"; "o3-"].

(** The [params] dict that [_call_openai] passes to
    [client.chat.completions.create] with it as keyword arguments; [params.update(kwargs)]
    lets the keyword arguments win, i.e. [kwargs ∪ params]. *)
Definition openai_params (model : string) (messages : list Message)
    (temperature : option QArith_base.Q) (max_tokens : option Z) (kwargs : gmap string Arg)
    : gmap string Arg :=
  let params : gmap string Arg :=
    <["model" := ArgVal (YStr model)]> (<["messages" := ArgMessages messages]> ∅) in
  let is_reasoning := is_reasoning_model model in
  let params :=
    match temperature with
    | Some t => if negb is_reasoning then <["temperature" := ArgVal (YFloat t)]> params
                else params
    | None => params
    end in
  let params :=
    match max_tokens with
    | Some n =>
        if is_reasoning then <["max_completion_tokens" := ArgVal (YInt n)]> params
        else <["max_tokens" := ArgVal (YInt n)]> params
    | None => params
    end in
  kwargs ∪ params.

(** [_call_groq]'s [params]: temperature and [max_tokens] are passed
    as given, whatever the model. *)
Definition groq_params (model : string) (messages : list Message)
    (temperature : option QArith_base.Q) (max_tokens : option Z) (kwargs : gmap string Arg)
    : gmap string Arg :=
  let params : gmap string Arg :=
    <["model" := ArgVal (YStr model)]> (<["messages" := ArgMessages messages]> ∅) in
  let params :=
    match temperature with
    | Some t => <["temperature" := ArgVal (YFloat t)]> params
    | None => params
    end in
  let params :=
    match max_tokens with
    | Some n => <["max_tokens" := ArgVal (YInt n)]> params
    | None => params
    end in
  kwargs ∪ params.

(** The keyword arguments [json_chat] passes on to [chat]. *)
Definition json_chat_kwargs (provider : Provider) (kwargs : gmap string Arg)
    : gmap string Arg :=
  match provider with
  | openai => <["response_format" := ArgVal (YDict [("type", YStr "json_object")])]> kwargs
  | _ => kwargs
  end.

(** The keyword arguments [tool_chat] passes on to [chat]. *)
Definition tool_chat_kwargs (provider : Provider) (tools : list YVal)
    (kwargs : gmap string Arg) : gmap string Arg :=
  match provider with
  | openai | groq =>
      <["tool_choice" := ArgVal (YStr "auto")]> (<["tools" := ArgVal (YList tools)]> kwargs)
  | google => kwargs
  end.

(** The [config_params] of [_call_google]; [None] stands for
    [generation_config = None] (an empty [config_params]). *)
Definition google_config_params (temperature : option QArith_base.Q) (max_tokens : option Z)
    (system_instruction : option string) : option (gmap string YVal) :=
  let config_params : gmap string YVal := ∅ in
  let config_params :=
    match temperature with
    | Some t => <["temperature" := YFloat t]> config_params
    | None => config_params
    end in
  let config_params :=
    match max_tokens with
    | Some n => <["max_output_tokens" := YInt n]> config_params
    | None => config_params
    end in
  let config_params :=
    match system_instruction with
    | Some s => if String.eqb s "" then config_params
                else <["system_instruction" := YStr s]> config_params
    | None => config_params
    end in
  if bool_decide (config_params = ∅) then None else Some config_params.

(* ------------------------------------------------------------------ *)
(** ** Configuration ([src/utils/config.loader.py]) *)

(** [s.split(sep)] for a one-character separator. *)
Fixpoint py_split (sep : ascii) (s : string) : list string :=
  match s with
  | EmptyString => [""]
  | String c s' =>
      let parts := py_split sep s' in
      if Ascii.eqb c sep then "" :: parts
      else match parts with
           | p :: ps => String c p :: ps
           | [] => [String c ""]
           end
  end.

(** The loop of [Config.get] over the keys of the path. *)
Fixpoint config_get_path (keys : list string) (value dflt : YVal) : YVal :=
  match keys with
  | [] => value
  | key :: keys' =>
      match value with
      | YDict d =>
          match ydict_lookup d key with
          | Some v => config_get_path keys' v dflt
          | None => dflt
          end
      | _ => dflt
      end
  end.

(** [Config.get(key_path, default)] on the loaded YAML document
    [config] (the [_config] of the [Config] instance). *)
Definition config_get (config : YVal) (key_path : string) (dflt : YVal) : YVal :=
  config_get_path (py_split "."%char key_path) config dflt.

(** The convenience accessors, on the configuration [get_config()]
    returns. *)
Definition get_max_retries (config : YVal) : YVal :=
  config_get config "retry.max_retries" (YInt 3).

Definition should_auto_route_reasoning (config : YVal) : YVal :=
  config_get config "models.auto_routing" (YBool true).

Definition get_reasoning_techniques (config : YVal) : YVal :=
  config_get config "models.reasoning_techniques" (YList [YStr "cot"; YStr "tot"]).

(** [get_default_temperature(task_type)]: [if task_type:] tests the
    truthiness of the optional string; a by-task value that is [None]
    falls back to the global default. *)
Definition get_default_temperature (config : YVal) (task_type : option string) : YVal :=
  let fallback := config_get config "defaults.temperature" (YFloat (QArith_base.Qmake 1 5)) in
  match task_type with
  | Some task_type =>
      if negb (String.eqb task_type "") then
        match config_get config ("defaults.by_task." +:+ task_type +:+ ".temperature") YNone with
        | YNone => fallback
        | temp => temp
        end
      else fallback
  | None => fallback
  end.

(** [get_default_max_tokens(task_type)], the same shape with [1000]. *)
Definition get_default_max_tokens (config : YVal) (task_type : option string) : YVal :=
  let fallback := config_get config "defaults.max_tokens" (YInt 1000) in
  match task_type with
  | Some task_type =>
      if negb (String.eqb task_type "") then
        match config_get config ("defaults.by_task." +:+ task_type +:+ ".max_tokens") YNone with
        | YNone => fallback
        | max_tok => max_tok
        end
      else fallback
  | None => fallback
  end.

(* ------------------------------------------------------------------ *)
(** ** Model routing ([src/utils/router.py]) *)

Definition type_error : Exn := PyExc "TypeError" "unsupported operand type".

(** [key in v] for a string [key]: a key of a mapping, an element of a
    list, a substring of a string; a [TypeError] otherwise. *)
Definition py_in (key : string) (v : YVal) : Exn + bool :=
  match v with
  | YDict d => inr (match ydict_lookup d key with Some _ => true | None => false end)
  | YList l => inr (existsb (fun x => match x with YStr s => String.eqb s key | _ => false end) l)
  | YStr s => inr (contains key s)
  | _ => inl type_error
  end.

(** [v[key]] for a string [key]: only a mapping accepts it; a missing
    key raises [KeyError], whose message [str(e)] is the key's [repr]
    (quoted, for the plain keys the code indexes with). *)
Definition py_index (v : YVal) (key : string) : Exn + YVal :=
  match v with
  | YDict d =>
      match ydict_lookup d key with
      | Some x => inr x
      | None => inl (PyExc "KeyError" ("'" +:+ key +:+ "'"))
      end
  | _ => inl type_error
  end.

(** The tier chosen from the technique when none is given. *)
Definition route_tier (technique : string) : string :=
  let technique_lower := lower technique in
  if existsb (fun x => contains x technique_lower) ["cot"; "tot"; "reason"; "think"]
  then "reason"
  else if existsb (fun x => contains x technique_lower) ["strong"; "complex"; "advanced"]
  then "strong"
  else "general".

(** [pick_model] once the YAML file [config_path] has been found and
    loaded into [config]. *)
Definition pick_model (config : YVal) (provider technique : string)
    (tier : option string) (config_path : string) : Exn + YVal :=
  match py_in provider config with
  | inl e => inl e
  | inr false =>
      inl (PyExc "KeyError" ("Provider '" +:+ provider +:+ "' not found in " +:+ config_path))
  | inr true =>
      let tier := match tier with Some t => t | None => route_tier technique end in
      match py_index config provider with
      | inl e => inl e
      | inr provider_config =>
          match py_in tier provider_config with
          | inl e => inl e
          | inr present =>
              let tier := if present then tier else "general" in
              py_index provider_config tier
          end
      end
  end.

(** Iterating over a loaded value: a list's elements, a string's
    characters, a mapping's keys. *)
Definition py_iter (v : YVal) : Exn + list YVal :=
  match v with
  | YList l => inr l
  | YStr s => inr (map (fun c => YStr (String c EmptyString)) (String.list_ascii_of_string s))
  | YDict d => inr (map (fun kv => YStr kv.1) d)
  | _ => inl type_error
  end.

(** [any(keyword in technique_lower for keyword in keywords)], stopping
    at the first match; a non-string keyword raises [TypeError]. *)
Fixpoint any_keyword_in (keywords : list YVal) (technique_lower : string) : Exn + bool :=
  match keywords with
  | [] => inr false
  | YStr k :: rest =>
      if contains k technique_lower then inr true else any_keyword_in rest technique_lower
  | _ :: _ => inl type_error
  end.

(** [should_use_reasoning_model] on the configuration [get_config()]
    returns, the accessors it imports from [.config_loader] being those
    of [config.loader.py]. *)
Definition should_use_reasoning_model (config : YVal) (technique : string) : Exn + bool :=
  if negb (py_truthy (should_auto_route_reasoning config)) then inr false
  else
    let technique_lower := lower technique in
    let reasoning_techniques := get_reasoning_techniques config in
    match py_in technique_lower reasoning_techniques with
    | inl e => inl e
    | inr true => inr true
    | inr false =>
        match py_iter reasoning_techniques with
        | inl e => inl e
        | inr keywords => any_keyword_in keywords technique_lower
        end
    end.

(** A client and a backend to run [chat] on. *)
Definition example_client : LLMClient :=
  {| client_provider := openai; client_model := "gpt-4o";
     client_max_retries := 2; client_hard_prompt_cap := None |}.

(** A backend rate-limited on the first attempt and answering after. *)
Definition example_backend : Backend :=
  {| openai_create := fun _ attempt =>
       if (attempt =? 0)%nat
       then inl (PyExc "RateLimitError" "Error code: 429 - rate limit reached")
       else inr {| cc_choices := [Some "hello"]; cc_usage := Some (9%Z, 2%Z, 11%Z) |};
     google_generate := fun _ _ => inl (PyExc "Exception" "unused");
     groq_create := fun _ _ => inl (PyExc "Exception" "unused") |}.

(* ------------------------------------------------------------------ *)
(** ** Statements of the specification *)

(** "Its content was truncated": [m] is a message [orig] of the input
    whose [content] was replaced by the decoding of a strict prefix of
    its tokens followed by the marker. *)
Definition truncated_from (enc : Encoding) (msgs : list Message) (m : Message) : Prop :=
  exists orig toks,
    In orig msgs /\
    toks `prefix_of` encode enc (py_get orig "content" "") /\
    (length toks < length (encode enc (py_get orig "content" "")))%nat /\
    m = <["content" := decode enc toks +:+ truncation_marker]> orig.

(** Truncation monotonicity as the specification states it, for the
    tokenizer registry [gk]. *)
Definition truncation_monotone (gk : string -> Encoding) : Prop :=
  forall msgs provider model max_context_tokens context_strs,
    (max_context_tokens < estimate_prompt_tokens gk msgs provider model context_strs)%Z ->
    let r := fit_within_context gk msgs provider model max_context_tokens "truncate" context_strs in
    (estimate_prompt_tokens gk r.1.1 provider model r.1.2 <= max_context_tokens)%Z \/
    exists m, List.filter (fun m => negb (is_system m)) r.1.1 = [m] /\
              truncated_from (pick_encoding gk provider model) msgs m.

(** A heap holding [[system; user; user]]: the list object at location
    1 and one dict object per message. *)
Definition example_heap : Heap :=
  list_to_map [(1%positive, PyList [ItemRef 2; ItemRef 3; ItemRef 4]);
               (2%positive, PyDict (mk_msg "system" "sys"));
               (3%positive, PyDict (mk_msg "user" "aaaaaaaaaa"));
               (4%positive, PyDict (mk_msg "user" "bbbbbbbbbbbbbbbbbbbbbb"))].

(* ================================================================== *)
(** * Proofs *)

(** ** Token estimation *)

Section TokenLemmas.

Variable gk : string -> Encoding.
Variables (provider : Provider) (model : string).

Local Abbreviation enc := (pick_encoding gk provider model).
Local Abbreviation est ms ctx := (estimate_prompt_tokens gk ms provider model ctx).

Lemma estimate_prompt_tokens_eq ms ctx :
  est ms ctx = (input_tokens_of enc ms + context_tokens_opt enc ctx + 3)%Z.
Proof.
  unfold estimate_prompt_tokens, count_messages_tokens.
  rewrite lookup_insert_ne; [|done]. rewrite lookup_insert_ne; [|done].
  by rewrite lookup_insert_eq.
Qed.

Lemma message_tokens_ge (m : Message) : (4 <= message_tokens enc m)%Z.
Proof. unfold message_tokens. lia. Qed.

Lemma input_tokens_of_app (a b : list Message) :
  input_tokens_of enc (a ++ b) = (input_tokens_of enc a + input_tokens_of enc b)%Z.
Proof. induction a as [|m a IH]; simpl; lia. Qed.

Lemma input_tokens_of_partition (f : Message -> bool) (l : list Message) :
  (input_tokens_of enc (List.filter f l) +
   input_tokens_of enc (List.filter (fun m => negb (f m)) l))%Z = input_tokens_of enc l.
Proof. induction l as [|m l IH]; simpl; [done|]. destruct (f m); simpl; lia. Qed.

Lemma input_tokens_of_drop k (l : list Message) :
  (input_tokens_of enc (drop k l) <= input_tokens_of enc l)%Z.
Proof.
  revert l; induction k as [|k IH]; intros [|m l]; simpl; try lia.
  specialize (IH l). pose proof (message_tokens_ge m). lia.
Qed.

(** Partitioning into system and other messages does not change the
    estimate. *)
Lemma estimate_partition (msgs : list Message) ctx :
  est (List.filter is_system msgs ++ List.filter (fun m => negb (is_system m)) msgs) ctx
  = est msgs ctx.
Proof.
  rewrite !estimate_prompt_tokens_eq, input_tokens_of_app.
  pose proof (input_tokens_of_partition is_system msgs). lia.
Qed.

Lemma estimate_drop_le (sys others : list Message) k ctx :
  (est (sys ++ drop k others) ctx <= est (sys ++ others) ctx)%Z.
Proof.
  rewrite !estimate_prompt_tokens_eq, !input_tokens_of_app.
  pose proof (input_tokens_of_drop k others). lia.
Qed.

Lemma is_system_insert_content (m : Message) c :
  is_system (<["content" := c]> m) = is_system m.
Proof. unfold is_system. by rewrite lookup_insert_ne. Qed.

Variables (max_context_tokens : Z) (context_strs : option (list string)).

Local Abbreviation drop_loop := (drop_oldest gk provider model max_context_tokens context_strs).
Local Abbreviation trunc := (truncate_last gk provider model max_context_tokens context_strs).

(** The dropping loop removes a prefix of length [k]; each removal
    happened with more than one message left and the estimate over
    budget, and the loop stopped because one of the two failed. *)
Lemma drop_oldest_spec (sys others : list Message) :
  exists k,
    drop_loop sys others = drop k others /\ k <= length others /\
    (forall j, j < k ->
       1 < length others - j /\
       (max_context_tokens < est (sys ++ drop j others) context_strs)%Z) /\
    (length others - k <= 1 \/
     (est (sys ++ drop k others) context_strs <= max_context_tokens)%Z).
Proof.
  induction others as [|m rest IH]; simpl.
  - exists 0. repeat split; simpl; lia.
  - destruct ((1 <? S (length rest))%nat &&
              (max_context_tokens <? est (sys ++ m :: rest) context_strs)%Z) eqn:E.
    + apply andb_true_iff in E as [E1 E2].
      apply Nat.ltb_lt in E1. apply Z.ltb_lt in E2.
      destruct IH as (k & Hk & Hle & Hall & Hstop).
      exists (S k). rewrite Hk. split; [done|]. split; [simpl; lia|]. split.
      * intros [|j] Hj; simpl; [split; [lia|done]|].
        apply Hall. lia.
      * simpl. exact Hstop.
    + exists 0. split; [done|]. split; [lia|]. split; [intros; lia|].
      apply andb_false_iff in E as [E|E].
      * apply Nat.ltb_ge in E. left. simpl. lia.
      * apply Z.ltb_ge in E. right. exact E.
Qed.

(** The content truncation either leaves the list alone or rewrites
    the [content] key of its last message. *)
Lemma truncate_last_cases (sys others : list Message) :
  trunc sys others = others \/
  exists pre lm c, others = pre ++ [lm] /\
                   trunc sys others = pre ++ [<["content" := c]> lm].
Proof.
  unfold truncate_last.
  destruct (_ && _); [|by left].
  destruct (last others) as [lm|] eqn:El; [|by left].
  destruct (_ <? _)%Z; [|by left].
  right. apply last_Some in El as [pre ->].
  do 3 eexists. split; [done|]. by rewrite removelast_last.
Qed.

Lemma truncate_last_below (sys others : list Message) :
  (est (sys ++ others) context_strs <= max_context_tokens)%Z ->
  trunc sys others = others.
Proof.
  intros H. unfold truncate_last.
  destruct (max_context_tokens <? _)%Z eqn:E; [apply Z.ltb_lt in E; lia|done].
Qed.

Lemma truncate_last_length (sys others : list Message) :
  length (trunc sys others) = length others.
Proof.
  destruct (truncate_last_cases sys others) as [-> | (pre & lm & c & -> & ->)]; [done|].
  rewrite !length_app. done.
Qed.

Lemma truncate_last_nonsystem (sys others : list Message) :
  Forall (fun m => is_system m = false) others ->
  Forall (fun m => is_system m = false) (trunc sys others).
Proof.
  destruct (truncate_last_cases sys others) as [-> | (pre & lm & c & -> & ->)]; [done|].
  rewrite !Forall_app, !Forall_singleton, is_system_insert_content. done.
Qed.

End TokenLemmas.

Lemma filter_all_true {A} (f : A -> bool) (l : list A) :
  Forall (fun x => f x = true) l -> List.filter f l = l.
Proof. induction 1 as [|x l Hx _ IH]; simpl; [done|]. by rewrite Hx, IH. Qed.

Lemma filter_all_false {A} (f : A -> bool) (l : list A) :
  Forall (fun x => f x = false) l -> List.filter f l = [].
Proof. induction 1 as [|x l Hx _ IH]; simpl; [done|]. by rewrite Hx, IH. Qed.

Lemma filter_is_system_true (l : list Message) :
  Forall (fun m => is_system m = true) (List.filter is_system l).
Proof.
  induction l as [|m l IH]; simpl; [done|].
  destruct (is_system m) eqn:E; [constructor|]; done.
Qed.

Lemma filter_is_system_false (l : list Message) :
  Forall (fun m => is_system m = false) (List.filter (fun m => negb (is_system m)) l).
Proof.
  induction l as [|m l IH]; simpl; [done|].
  destruct (is_system m) eqn:E; simpl; [|constructor]; done.
Qed.

Lemma Forall_drop {A} (P : A -> Prop) k (l : list A) :
  Forall P l -> Forall P (drop k l).
Proof. intros H. revert l H; induction k; intros [|x l] H; simpl; inversion H; auto. Qed.

(** ** The context fitter *)

Lemma length_filter_partition {A} (f : A -> bool) (l : list A) :
  length (List.filter f l) + length (List.filter (fun x => negb (f x)) l) = length l.
Proof. induction l as [|x l IH]; simpl; [done|]. destruct (f x); simpl; lia. Qed.

(** The truncate branch of [fit_within_context], once over budget. *)
Lemma fit_truncate_eq gk msgs provider model mx ctx :
  (mx < estimate_prompt_tokens gk msgs provider model ctx)%Z ->
  fit_within_context gk msgs provider model mx "truncate" ctx =
    let sys := List.filter is_system msgs in
    let others :=
      truncate_last gk provider model mx ctx sys
        (drop_oldest gk provider model mx ctx sys
           (List.filter (fun m => negb (is_system m)) msgs)) in
    (sys ++ others, ctx,
     {| fm_overflow := true;
        fm_original_tokens := Some (estimate_prompt_tokens gk msgs provider model ctx);
        fm_strategy := Some "truncate";
        fm_messages_removed :=
          Some (Z.of_nat (length msgs) - Z.of_nat (length sys)
                - Z.of_nat (length others))%Z;
        fm_action_required := None |}).
Proof.
  intros H. unfold fit_within_context.
  destruct (_ <=? mx)%Z eqn:E; [apply Z.leb_le in E; lia|]. reflexivity.
Qed.

(** [C7] Below budget the fitter is the identity: for every strategy,
    the input messages and context strings are returned unchanged with
    [overflow = false]. *)
Theorem fit_noop_within_budget gk msgs provider model mx strategy ctx :
  (estimate_prompt_tokens gk msgs provider model ctx <= mx)%Z ->
  let r := fit_within_context gk msgs provider model mx strategy ctx in
  r.1.1 = msgs /\ r.1.2 = ctx /\ fm_overflow r.2 = false.
Proof.
  intros H. unfold fit_within_context.
  destruct (_ <=? mx)%Z eqn:E; [done|]. apply Z.leb_gt in E. lia.
Qed.

Lemma fit_noop_within_budget_witness :
  (estimate_prompt_tokens byte_tiktoken [mk_msg "user" "hello"] openai "gpt-4o" None <= 20)%Z /\
  let r := fit_within_context byte_tiktoken [mk_msg "user" "hello"] openai "gpt-4o" 20
             "truncate" None in
  r.1.1 = [mk_msg "user" "hello"] /\ r.1.2 = None /\ fm_overflow r.2 = false.
Proof.
  assert (H : (estimate_prompt_tokens byte_tiktoken [mk_msg "user" "hello"] openai "gpt-4o" None
               <= 20)%Z) by (vm_compute; discriminate).
  split; [exact H|]. exact (fit_noop_within_budget _ _ _ _ _ _ _ H).
Defined.

(** [C8] An unknown strategy over budget is a silent no-op: the input
    messages and context strings are returned with [overflow = false]. *)
Theorem fit_unknown_strategy_noop gk msgs provider model mx strategy ctx :
  strategy <> "truncate" -> strategy <> "summarize" ->
  (mx < estimate_prompt_tokens gk msgs provider model ctx)%Z ->
  let r := fit_within_context gk msgs provider model mx strategy ctx in
  r.1.1 = msgs /\ r.1.2 = ctx /\ fm_overflow r.2 = false.
Proof.
  intros Ht Hs H. unfold fit_within_context.
  destruct (_ <=? mx)%Z eqn:E; [apply Z.leb_le in E; lia|].
  apply String.eqb_neq in Ht, Hs. rewrite Ht, Hs. done.
Qed.

Lemma fit_unknown_strategy_noop_witness :
  let msgs := [mk_msg "user" "a long user turn"] in
  let r := fit_within_context byte_tiktoken msgs google "gemini-2.0-flash" 5 "drop" None in
  r.1.1 = msgs /\ r.1.2 = None /\ fm_overflow r.2 = false.
Proof.
  apply fit_unknown_strategy_noop; [discriminate | discriminate | vm_compute; done].
Defined.

Lemma filter_negb_system_all (l : list Message) :
  Forall (fun m => is_system m = true) l ->
  List.filter (fun m => negb (is_system m)) l = [].
Proof. induction 1 as [|m l Hm _ IH]; simpl; [done|]. by rewrite Hm. Qed.

Lemma filter_negb_system_none (l : list Message) :
  Forall (fun m => is_system m = false) l ->
  List.filter (fun m => negb (is_system m)) l = l.
Proof. induction 1 as [|m l Hm _ IH]; simpl; [done|]. by rewrite Hm, IH. Qed.

(** The shape of the truncate result: the system messages, then the
    surviving others, the last one possibly with a rewritten content. *)
Lemma fit_truncate_shape gk msgs provider model mx ctx :
  (mx < estimate_prompt_tokens gk msgs provider model ctx)%Z ->
  let r := fit_within_context gk msgs provider model mx "truncate" ctx in
  let sys := List.filter is_system msgs in
  let others := List.filter (fun m => negb (is_system m)) msgs in
  exists k rest,
    drop_oldest gk provider model mx ctx sys others = drop k others /\
    rest = truncate_last gk provider model mx ctx sys (drop k others) /\
    k <= length others /\
    r.1.1 = sys ++ rest /\
    Forall (fun m => is_system m = false) rest /\
    length rest = length others - k /\
    fm_messages_removed r.2 = Some (Z.of_nat k).
Proof.
  intros H r sys others. subst r.
  rewrite fit_truncate_eq by exact H. cbv zeta.
  fold sys others.
  destruct (drop_oldest_spec gk provider model mx ctx sys others)
    as (k & Hk & Hle & _ & _).
  rewrite Hk.
  exists k, (truncate_last gk provider model mx ctx sys (drop k others)).
  pose proof (truncate_last_length gk provider model mx ctx sys (drop k others)) as Hlen.
  rewrite length_drop in Hlen.
  pose proof (length_filter_partition is_system msgs) as Hpart. fold sys others in Hpart.
  repeat split; try done.
  - apply truncate_last_nonsystem, Forall_drop, filter_is_system_false.
  - simpl. f_equal. lia.
Qed.

(** [C5] The truncate strategy keeps every system message, drops
    non-system messages oldest-first, each drop made while more than one
    non-system message remained and the estimate exceeded the budget,
    and reports the number dropped as [messages_removed]. For
    [system; user_1; assistant_1; user_2] where dropping [user_1] alone
    is not enough but dropping [user_1] and [assistant_1] is, the result
    is [system; user_2] with [messages_removed = 2]. *)
Theorem fit_truncate_drops_oldest_keeps_system :
  (forall gk msgs provider model mx ctx,
     (mx < estimate_prompt_tokens gk msgs provider model ctx)%Z ->
     let r := fit_within_context gk msgs provider model mx "truncate" ctx in
     let sys := List.filter is_system msgs in
     let others := List.filter (fun m => negb (is_system m)) msgs in
     exists k rest,
       r.1.1 = sys ++ rest /\
       List.filter is_system r.1.1 = sys /\
       (rest = drop k others \/
        exists pre lm c, drop k others = pre ++ [lm] /\
                         rest = pre ++ [<["content" := c]> lm]) /\
       (forall j, j < k ->
          1 < length others - j /\
          (mx < estimate_prompt_tokens gk (sys ++ drop j others) provider model ctx)%Z) /\
       fm_messages_removed r.2 = Some (Z.of_nat k)) /\
  (forall gk provider model mx ctx (s u1 a1 u2 : Message),
     is_system s = true -> is_system u1 = false ->
     is_system a1 = false -> is_system u2 = false ->
     (mx < estimate_prompt_tokens gk [s; a1; u2] provider model ctx)%Z ->
     (estimate_prompt_tokens gk [s; u2] provider model ctx <= mx)%Z ->
     let r := fit_within_context gk [s; u1; a1; u2] provider model mx "truncate" ctx in
     r.1.1 = [s; u2] /\ fm_messages_removed r.2 = Some 2%Z).
Proof.
  split.
  - intros gk msgs provider model mx ctx H r sys others.
    destruct (fit_truncate_shape gk msgs provider model mx ctx H)
      as (k & rest & Hk & Hrest & Hle & Hr & Hns & Hlen & Hrm).
    fold r sys others in Hk, Hrest, Hle, Hr, Hns, Hlen, Hrm.
    destruct (drop_oldest_spec gk provider model mx ctx sys others)
      as (k' & Hk' & Hle' & Hall & _).
    assert (Hkk : k' = k).
    { rewrite Hk in Hk'. apply (f_equal length) in Hk'.
      rewrite !length_drop in Hk'. lia. }
    subst k'.
    exists k, rest. split; [done|]. split.
    + rewrite Hr, List.filter_app, filter_all_true by apply filter_is_system_true.
      rewrite filter_all_false by exact Hns. apply app_nil_r.
    + split; [|split; [exact Hall|exact Hrm]].
      rewrite Hrest. apply truncate_last_cases.
  - intros gk provider model mx ctx s u1 a1 u2 Hs Hu1 Ha1 Hu2 H1 H2 r.
    assert (H0 : (mx < estimate_prompt_tokens gk [s; u1; a1; u2] provider model ctx)%Z).
    { rewrite estimate_prompt_tokens_eq in *. simpl in *.
      pose proof (message_tokens_ge gk provider model u1). lia. }
    subst r. rewrite fit_truncate_eq by exact H0. cbv zeta.
    simpl List.filter. rewrite Hs, Hu1, Ha1, Hu2. simpl negb. cbv iota.
    simpl drop_oldest.
    replace ([s] ++ [u1; a1; u2]) with [s; u1; a1; u2] by done.
    replace ([s] ++ [a1; u2]) with [s; a1; u2] by done.
    apply Z.ltb_lt in H0, H1. rewrite H0, H1. simpl.
    rewrite truncate_last_below by exact H2. done.
Qed.

Lemma fit_truncate_drops_oldest_keeps_system_witness :
  let msgs := [mk_msg "system" "be brief"; mk_msg "user" "first question";
               mk_msg "assistant" "first answer"; mk_msg "user" "next"] in
  let r := fit_within_context byte_tiktoken msgs openai "gpt-4o" 30 "truncate" None in
  r.1.1 = [mk_msg "system" "be brief"; mk_msg "user" "next"] /\
  fm_messages_removed r.2 = Some 2%Z.
Proof.
  apply (proj2 fit_truncate_drops_oldest_keeps_system);
    try reflexivity; vm_compute; done.
Defined.

(** [C1] (as amended) After truncate-strategy fitting of an over-budget
    input, either the returned estimate is within the budget; or the
    input had no non-system message and only its system messages are
    returned (still over budget); or the one non-system message left is
    the input's last non-system message [lm], truncated exactly when its
    token count exceeds [available = max - (4 * (systemCount + 1) + 3)]
    and otherwise kept as it is, in which case the result is still over
    budget. *)
Theorem fit_truncate_within_budget_or_floor gk msgs provider model mx ctx :
  (mx < estimate_prompt_tokens gk msgs provider model ctx)%Z ->
  let r := fit_within_context gk msgs provider model mx "truncate" ctx in
  let sys := List.filter is_system msgs in
  let enc := pick_encoding gk provider model in
  let available := (mx - (4 * (Z.of_nat (length sys) + 1) + 3))%Z in
  (estimate_prompt_tokens gk r.1.1 provider model r.1.2 <= mx)%Z \/
  (List.filter (fun m => negb (is_system m)) msgs = [] /\ r.1.1 = sys /\
   (mx < estimate_prompt_tokens gk r.1.1 provider model r.1.2)%Z) \/
  (exists lm,
     last (List.filter (fun m => negb (is_system m)) msgs) = Some lm /\
     let tokens := encode enc (py_get lm "content" "") in
     r.1.1 = sys ++ [if (available <? Z.of_nat (length tokens))%Z
                     then <["content" := decode enc (py_slice_to tokens available)
                                         +:+ truncation_marker]> lm
                     else lm] /\
     ((Z.of_nat (length tokens) <= available)%Z ->
      (mx < estimate_prompt_tokens gk r.1.1 provider model r.1.2)%Z)).
Proof.
  intros H r sys enc available.
  set (others := List.filter (fun m => negb (is_system m)) msgs).
  assert (Hr1 : r.1.1 = sys ++ truncate_last gk provider model mx ctx sys
                           (drop_oldest gk provider model mx ctx sys others))
    by (subst r; rewrite fit_truncate_eq by exact H; done).
  assert (Hr2 : r.1.2 = ctx) by (subst r; rewrite fit_truncate_eq by exact H; done).
  rewrite Hr2.
  destruct (drop_oldest_spec gk provider model mx ctx sys others)
    as (k & Hk & Hle & Hall & Hstop).
  rewrite Hk in Hr1.
  destruct (Z_le_gt_dec (estimate_prompt_tokens gk (sys ++ drop k others) provider model ctx) mx)
    as [Hfit | Hover].
  { left. rewrite Hr1, truncate_last_below by exact Hfit. exact Hfit. }
  right. destruct Hstop as [Hone | Hfit]; [|lia].
  pose proof (take_drop k others) as Htd.
  destruct (drop k others) as [|lm [|x rest]] eqn:Ed.
  - left.
    assert (Hnil : others = []).
    { apply (f_equal length) in Ed. rewrite length_drop in Ed. simpl in Ed.
      destruct k as [|k'].
      - destruct others; [done|simpl in Ed; lia].
      - destruct (Hall k' ltac:(lia)) as [Hlt _]. lia. }
    assert (Ht : truncate_last gk provider model mx ctx sys [] = []).
    { unfold truncate_last. rewrite bool_decide_eq_true_2 by done.
      rewrite andb_false_r. done. }
    rewrite Ht, app_nil_r in Hr1. rewrite app_nil_r in Hover.
    split; [exact Hnil|]. split; [exact Hr1|]. rewrite Hr1. lia.
  - right. exists lm. split.
    { rewrite <- Htd. apply last_snoc. }
    intros tokens.
    assert (Ht : truncate_last gk provider model mx ctx sys [lm] =
                 [if (available <? Z.of_nat (length tokens))%Z
                  then <["content" := decode enc (py_slice_to tokens available)
                                      +:+ truncation_marker]> lm
                  else lm]).
    { assert (Hlt : (mx < estimate_prompt_tokens gk (sys ++ [lm]) provider model ctx)%Z)
        by lia.
      unfold truncate_last. rewrite (proj2 (Z.ltb_lt _ _) Hlt).
      rewrite bool_decide_eq_false_2 by done. simpl.
      subst tokens available enc. destruct (_ <? _)%Z; done. }
    rewrite Hr1, Ht. split; [done|].
    intros Hsmall. rewrite (proj2 (Z.ltb_ge _ _) Hsmall). lia.
  - exfalso. apply (f_equal length) in Ed. rewrite length_drop in Ed.
    simpl in Ed. lia.
Qed.

(** [C1] counterexample: the floor case does not always end with a
    truncated message. A conversation made of one system message over
    budget keeps no non-system message at all; and for a long system
    message followed by the user message ["hi"] (under [max = 20]),
    ["hi"] has fewer than [available] tokens, so it is left untruncated
    and the result stays over budget: no message of the result ends
    with the marker. *)
Lemma fit_truncate_floor_counterexample :
  ~ truncation_monotone byte_tiktoken /\
  (let msgs := [mk_msg "system" "aaaaaaaaaaaaaaaaaaaaaaaaaaaaaa"; mk_msg "user" "hi"] in
   (20 < estimate_prompt_tokens byte_tiktoken msgs openai "gpt-4o" None)%Z /\
   ~ (let r := fit_within_context byte_tiktoken msgs openai "gpt-4o" 20 "truncate" None in
      (estimate_prompt_tokens byte_tiktoken r.1.1 openai "gpt-4o" r.1.2 <= 20)%Z \/
      exists m, List.filter (fun m => negb (is_system m)) r.1.1 = [m] /\
                truncated_from (pick_encoding byte_tiktoken openai "gpt-4o") msgs m)).
Proof.
  split.
  - intros Hclaim.
    destruct (Hclaim [mk_msg "system" ""] openai "gpt-4o" 0%Z None) as [Hle | (m & Hm & _)].
    + vm_compute. done.
    + vm_compute in Hle. apply Hle. reflexivity.
    + vm_compute in Hm. discriminate.
  - cbv zeta. split; [vm_compute; reflexivity|].
    intros [Hle | (m & Hm & orig & toks & _ & _ & _ & Heq)].
    + vm_compute in Hle. apply Hle. reflexivity.
    + vm_compute in Hm. injection Hm as <-.
      apply (f_equal (fun d : Message => d !! "content")) in Heq.
      rewrite lookup_insert_eq in Heq. revert Heq. generalize (decode (pick_encoding byte_tiktoken openai "gpt-4o") toks).
      intros d Heq. vm_compute in Heq. injection Heq as Heq.
      destruct d as [|c1 [|c2 [|c3 s3]]]; simpl in Heq; discriminate.
Qed.

(** On a long system message followed by ["hi"] under [max = 20], the
    last non-system message is kept untruncated and the result is the
    input, still over budget. *)
Lemma fit_truncate_within_budget_or_floor_witness :
  let msgs := [mk_msg "system" "aaaaaaaaaaaaaaaaaaaaaaaaaaaaaa"; mk_msg "user" "hi"] in
  let r := fit_within_context byte_tiktoken msgs openai "gpt-4o" 20 "truncate" None in
  r.1.1 = msgs /\
  (20 < estimate_prompt_tokens byte_tiktoken r.1.1 openai "gpt-4o" r.1.2)%Z.
Proof.
  cbv zeta.
  destruct (fit_truncate_within_budget_or_floor byte_tiktoken
              [mk_msg "system" "aaaaaaaaaaaaaaaaaaaaaaaaaaaaaa"; mk_msg "user" "hi"]
              openai "gpt-4o" 20 None ltac:(vm_compute; reflexivity))
    as [Hle | [(Hnil & _) | (lm & Hlast & Hres & Hover)]].
  - vm_compute in Hle. exfalso. apply Hle. reflexivity.
  - vm_compute in Hnil. discriminate.
  - vm_compute in Hlast. injection Hlast as <-.
    split.
    + rewrite Hres. vm_compute. reflexivity.
    + apply Hover. vm_compute. intros Hc. discriminate.
Defined.

(** [C4] (as amended) When the truncate strategy is still over budget
    after dropping messages and a non-system message [last_msg] remains
    last, with [available = max - (4 * (systemCount + 1) + 3) >= 0]: if
    its content has more than [available] tokens, it is replaced by the
    decoding of its first [available] tokens followed by the marker;
    otherwise the message is left as it is. With [available = 0] the new
    content is the marker alone (for a tokenizer decoding no tokens to
    the empty string). *)
Theorem fit_truncate_last_content gk msgs provider model mx ctx :
  let sys := List.filter is_system msgs in
  let others :=
    drop_oldest gk provider model mx ctx sys (List.filter (fun m => negb (is_system m)) msgs) in
  let available := (mx - (4 * (Z.of_nat (length sys) + 1) + 3))%Z in
  (mx < estimate_prompt_tokens gk (sys ++ others) provider model ctx)%Z ->
  (0 <= available)%Z ->
  forall pre last_msg, others = pre ++ [last_msg] ->
  let enc := pick_encoding gk provider model in
  let tokens := encode enc (py_get last_msg "content" "") in
  let new_last :=
    if (available <? Z.of_nat (length tokens))%Z
    then <["content" := decode enc (take (Z.to_nat available) tokens) +:+ truncation_marker]>
           last_msg
    else last_msg in
  (fit_within_context gk msgs provider model mx "truncate" ctx).1.1 = sys ++ pre ++ [new_last] /\
  (available = 0%Z -> tokens <> [] -> decode enc [] = ""%string ->
   py_get new_last "content" "" = truncation_marker).
Proof.
  intros sys others available Hover Havail pre last_msg Hlast enc tokens new_last.
  assert (Hmsgs : (mx < estimate_prompt_tokens gk msgs provider model ctx)%Z).
  { destruct (drop_oldest_spec gk provider model mx ctx sys
                (List.filter (fun m => negb (is_system m)) msgs)) as (k & Hk & _).
    fold others in Hk. rewrite Hk in Hover.
    pose proof (estimate_drop_le gk provider model sys
                  (List.filter (fun m => negb (is_system m)) msgs) k ctx).
    pose proof (estimate_partition gk provider model msgs ctx) as Hp.
    fold sys in Hp. lia. }
  split.
  - rewrite fit_truncate_eq by exact Hmsgs. cbv zeta. fold sys others. simpl.
    f_equal. unfold truncate_last. fold enc.
    apply Z.ltb_lt in Hover. rewrite Hover.
    rewrite Hlast, last_snoc, removelast_last.
    assert (Hne : bool_decide (pre ++ [last_msg] = []) = false).
    { apply bool_decide_eq_false. intros Hnil. apply (f_equal length) in Hnil.
      rewrite length_app in Hnil. simpl in Hnil. lia. }
    rewrite Hne. simpl. fold tokens. fold available.
    unfold new_last, py_slice_to.
    apply Z.leb_le in Havail. rewrite Havail.
    destruct (available <? Z.of_nat (length tokens))%Z; done.
  - intros H0 Hne Hdec. unfold new_last.
    rewrite H0. destruct tokens as [|t ts] eqn:Et; [done|].
    simpl. unfold py_get. rewrite lookup_insert_eq. simpl. rewrite Hdec. done.
Qed.

Lemma fit_truncate_last_content_witness :
  let msg := mk_msg "user" "please summarise this very long document" in
  (fit_within_context byte_tiktoken [msg] openai "gpt-4o" 7 "truncate" None).1.1 =
    [<["content" := truncation_marker]> msg] /\
  py_get (<["content" := truncation_marker]> msg) "content" "" = truncation_marker.
Proof.
  cbv zeta.
  destruct (fit_truncate_last_content byte_tiktoken
              [mk_msg "user" "please summarise this very long document"] openai "gpt-4o" 7 None)
    with (pre := @nil Message)
         (last_msg := mk_msg "user" "please summarise this very long document")
    as [H1 H2]; [vm_compute; done | vm_compute; discriminate | reflexivity |].
  assert (E : (7 - (4 * (Z.of_nat (length (List.filter is_system
                 [mk_msg "user" "please summarise this very long document"])) + 1) + 3))%Z = 0%Z)
    by reflexivity.
  specialize (H2 E ltac:(vm_compute; discriminate) eq_refl).
  split.
  - rewrite H1. vm_compute. reflexivity.
  - vm_compute in H2. vm_compute. exact H2.
Defined.

(** [C4] counterexample: a long system message and a short user turn.
    After dropping nothing, the estimate is still over the budget of 20,
    yet the user turn (2 tokens, fewer than [available = 9]) is left
    unchanged instead of being replaced by its first tokens followed by
    the marker. *)
Lemma fit_truncate_short_last_counterexample :
  let msgs := [mk_msg "system" "aaaaaaaaaaaaaaaaaaaaaaaaaaaaaa"; mk_msg "user" "hi"] in
  let sys := List.filter is_system msgs in
  let others :=
    drop_oldest byte_tiktoken openai "gpt-4o" 20 None sys
      (List.filter (fun m => negb (is_system m)) msgs) in
  (20 < estimate_prompt_tokens byte_tiktoken (sys ++ others) openai "gpt-4o" None)%Z /\
  others = [mk_msg "user" "hi"] /\
  (fit_within_context byte_tiktoken msgs openai "gpt-4o" 20 "truncate" None).1.1 = msgs /\
  (fit_within_context byte_tiktoken msgs openai "gpt-4o" 20 "truncate" None).1.1 <>
    sys ++ [<["content" := decode byte_encoding (take 9 (encode byte_encoding "hi"))
                           +:+ truncation_marker]> (mk_msg "user" "hi")].
Proof.
  split; [vm_compute; done|]. split; [vm_compute; reflexivity|].
  split; [vm_compute; reflexivity|].
  intros H. apply (f_equal (map (fun m => py_get m "content" ""))) in H.
  vm_compute in H. discriminate.
Qed.

(** ** Usage reconciliation *)

(** [C6] [reconcile_usage] always fills the three estimated fields from
    the estimate, and dispatches on the usage shape: the OpenAI-shaped
    [{prompt_tokens: 10, completion_tokens: 5, total_tokens: 15}] gives
    actual fields [(10, 5, 15)] copied directly; the Gemini-shaped
    [{promptTokenCount: 10, candidatesTokenCount: 5}] gives [(10, 5, 15)];
    in general a Gemini-shaped usage gives the two counts (a missing or
    [None] count read as 0) and their sum; an empty or absent usage
    leaves the three actual fields unset. *)
Theorem reconcile_usage_shape_dispatch :
  (forall (estimate : gmap string Z) usage,
     let r := reconcile_usage estimate usage in
     input_tokens_est r = py_get estimate "input_tokens" 0%Z /\
     context_tokens_est r = py_get estimate "context_tokens" 0%Z /\
     total_est r = py_get estimate "estimated_total" 0%Z) /\
  (forall (estimate : gmap string Z),
     let r := reconcile_usage estimate
                (Some (<["prompt_tokens" := PyInt 10]> (<["completion_tokens" := PyInt 5]>
                       (<["total_tokens" := PyInt 15]> ∅)))) in
     (prompt_tokens_actual r, completion_tokens_actual r, total_tokens_actual r) =
       (PyInt 10, PyInt 5, PyInt 15)) /\
  (forall (estimate : gmap string Z),
     let r := reconcile_usage estimate
                (Some (<["promptTokenCount" := PyInt 10]>
                       (<["candidatesTokenCount" := PyInt 5]> ∅))) in
     (prompt_tokens_actual r, completion_tokens_actual r, total_tokens_actual r) =
       (PyInt 10, PyInt 5, PyInt 15)) /\
  (forall (estimate : gmap string Z) (usage : gmap string PyVal),
     usage !! "prompt_tokens" = None -> is_Some (usage !! "promptTokenCount") ->
     let p := py_or_zero (py_get usage "promptTokenCount" PyNone) in
     let c := py_or_zero (py_get usage "candidatesTokenCount" PyNone) in
     let r := reconcile_usage estimate (Some usage) in
     (prompt_tokens_actual r, completion_tokens_actual r, total_tokens_actual r) =
       (PyInt p, PyInt c, PyInt (p + c))) /\
  (forall (estimate : gmap string Z) usage,
     usage = None \/ usage = Some ∅ ->
     let r := reconcile_usage estimate usage in
     (prompt_tokens_actual r, completion_tokens_actual r, total_tokens_actual r) =
       (PyNone, PyNone, PyNone)).
Proof.
  split; [|split; [|split; [|split]]].
  - intros estimate [usage|]; simpl; [|done].
    destruct (bool_decide (usage = ∅)); [done|].
    destruct (usage !! "prompt_tokens"); [done|].
    destruct (usage !! "promptTokenCount"); done.
  - intros estimate. reflexivity.
  - intros estimate. reflexivity.
  - intros estimate usage Hp [v Hv] p c r. subst r. simpl.
    rewrite bool_decide_eq_false_2.
    + rewrite Hp, Hv. done.
    + intros ->. rewrite lookup_empty in Hv. discriminate.
  - intros estimate usage [-> | ->]; reflexivity.
Qed.

(** A Gemini usage with only [promptTokenCount = 7]: the completion count
    defaults to 0 and the total is 7. *)
Lemma reconcile_usage_shape_dispatch_witness :
  let r := reconcile_usage ∅ (Some (<["promptTokenCount" := PyInt 7]> ∅)) in
  (prompt_tokens_actual r, completion_tokens_actual r, total_tokens_actual r) =
    (PyInt 7, PyInt 0, PyInt 7).
Proof.
  exact (proj1 (proj2 (proj2 (proj2 reconcile_usage_shape_dispatch))) ∅
           (<["promptTokenCount" := PyInt 7]> ∅) eq_refl (ex_intro _ (PyInt 7) eq_refl)).
Defined.

(** ** Provider dispatch *)

(** The Gemini shim returns [response.text] as it is. *)
Lemma call_google_text b messages attempt converted response :
  to_gemini messages None = inr converted ->
  google_generate b converted attempt = inr response ->
  call_google b messages attempt = inr (google_reply response) /\
  reply_text (google_reply response) = gr_text response.
Proof. intros H1 H2. unfold call_google. rewrite H1, H2. done. Qed.

(** [C9] The text of a successful dispatch is [""] when the provider
    returns no content: so it is for OpenAI and Groq ([content or ""]),
    but the Gemini shim passes [response.text] through, and a Gemini
    response without text (the SDK's [text] is [None], e.g. a response
    with no candidate parts) yields [text = None]. *)
Theorem dispatch_google_no_text_is_none :
  let b := {| openai_create := fun _ _ => inl (PyExc "Exception" "unused");
              google_generate := fun _ _ =>
                inr {| gr_text := None; gr_usage_metadata := Some (Some 12%Z, Some 0%Z) |};
              groq_create := fun _ _ => inl (PyExc "Exception" "unused") |} in
  dispatch google b [mk_msg "user" "hello"] 0 =
    inr {| reply_text := None;
           reply_usage := <["promptTokenCount" := PyInt 12]>
                          (<["candidatesTokenCount" := PyInt 0]> ∅) |}.
Proof. reflexivity. Qed.

(** The OpenAI and Groq shims never return [None] text, and return [""]
    when the message content is [None]. *)
Theorem dispatch_openai_groq_text_string provider b messages attempt reply :
  provider <> google ->
  dispatch provider b messages attempt = inr reply ->
  exists s, reply_text reply = Some s /\
  (forall response content rest,
     (provider = openai -> openai_create b messages attempt = inr response) ->
     (provider = groq -> groq_create b messages attempt = inr response) ->
     cc_choices response = content :: rest ->
     content = None -> s = ""%string).
Proof.
  intros Hp Hd.
  destruct provider; [| done |]; simpl in Hd.
  - unfold call_openai in Hd.
    destruct (openai_create b messages attempt) as [e|resp] eqn:Ec; [discriminate|].
    destruct (cc_choices resp) as [|content0 rest0] eqn:Ech; [discriminate|].
    injection Hd as <-. eexists. split; [reflexivity|].
    intros response content rest Ho _ Hch ->. specialize (Ho eq_refl).
    assert (resp = response) as <- by congruence.
    assert (content0 = None) as -> by congruence. done.
  - unfold call_groq in Hd.
    destruct (groq_create b messages attempt) as [e|resp] eqn:Ec; [discriminate|].
    destruct (cc_choices resp) as [|content0 rest0] eqn:Ech; [discriminate|].
    injection Hd as <-. eexists. split; [reflexivity|].
    intros response content rest _ Hg Hch ->. specialize (Hg eq_refl).
    assert (resp = response) as <- by congruence.
    assert (content0 = None) as -> by congruence. done.
Qed.

(** ** The retry loop *)

Section RetryLemmas.

Variables (max_retries : Z) (backoff_ms : nat -> Z) (call : nat -> Exn + ProviderReply).
Variables (token_counts : gmap string Z) (overflow_handled : bool).

Local Abbreviation loop := (retry_loop max_retries backoff_ms call token_counts overflow_handled).

Lemma retry_loop_attempts_le fuel attempt rc bt le :
  length (loop fuel attempt rc bt le).1 <= fuel.
Proof.
  revert attempt rc bt le.
  induction fuel as [|fuel IH]; intros attempt rc bt le; simpl; [lia|].
  destruct (call attempt) as [e|resp]; simpl; [|lia].
  destruct (_ && _).
  - specialize (IH (S attempt) (rc + 1)%Z (bt + backoff_ms attempt)%Z (Some e)).
    destruct (loop fuel _ _ _ _) as [tr r]. simpl in *. lia.
  - destruct (_ && _); simpl; lia.
Qed.

Lemma is_context_overflow_retryable e :
  is_context_overflow e = true -> is_retryable_error e = true.
Proof.
  unfold is_context_overflow, is_retryable_error. cbv zeta. intros H.
  destruct (contains "429" _ || _); [done|]. destruct (existsb _ _); [done|].
  destruct (contains "timeout" _ || _); [done|]. by rewrite H.
Qed.

(** When the loop raises after at least one attempt, the exception comes
    from the last attempt, which was not retried. *)
Lemma retry_loop_raised fuel attempt rc bt le tr x :
  Z.of_nat (attempt + fuel) = (max_retries + 1)%Z ->
  loop fuel attempt rc bt le = (tr, Raised x) ->
  tr <> [] ->
  exists a e,
    last tr = Some a /\ call a = inl e /\
    ((Z.of_nat a <? max_retries)%Z && is_retryable_error e) = false /\
    x = (if is_context_overflow e && negb overflow_handled
         then ChainedValueError overflow_message e else e).
Proof.
  revert attempt rc bt le tr.
  induction fuel as [|fuel IH]; intros attempt rc bt le tr Hinv Hloop Hne.
  - simpl in Hloop. injection Hloop as <- _. done.
  - simpl in Hloop.
    destruct (call attempt) as [e|resp] eqn:Ecall; [|discriminate].
    destruct ((Z.of_nat attempt <? max_retries)%Z && is_retryable_error e) eqn:Eretry.
    + destruct (loop fuel (S attempt) (rc + 1)%Z (bt + backoff_ms attempt)%Z (Some e))
        as [tr' r] eqn:Erec.
      injection Hloop as <- ->.
      apply andb_true_iff in Eretry as [Elt _]. apply Z.ltb_lt in Elt.
      assert (Hfuel : fuel <> 0) by lia.
      assert (Htr' : tr' <> []).
      { destruct fuel as [|fuel']; [done|]. simpl in Erec.
        destruct (call (S attempt)) as [e'|resp']; [|discriminate].
        destruct (_ && _).
        - destruct (loop fuel' _ _ _ _). injection Erec as <- _. done.
        - destruct (_ && _); injection Erec as <- _; done. }
      destruct (IH (S attempt) _ _ _ tr' ltac:(lia) Erec Htr') as (a & e' & Hl & H).
      exists a, e'. split; [|exact H].
      rewrite last_cons, Hl. done.
    + exists attempt, e.
      destruct (is_context_overflow e && negb overflow_handled);
        injection Hloop as <- <-; done.
Qed.

End RetryLemmas.

(** [C2] A call to [chat] calls the provider at most [max_retries + 1]
    times ([Z.to_nat] makes the bound 0 when [max_retries + 1] is
    negative, where [range] is empty and no attempt is made). *)
Theorem chat_attempts_bounded gk c b backoff_ms messages context_strs :
  length (chat gk c b backoff_ms messages context_strs).1 <=
    Z.to_nat (client_max_retries c + 1).
Proof.
  unfold chat.
  destruct (chat_preflight gk c messages context_strs) as [[[m' ctx'] oh] tc].
  apply retry_loop_attempts_le.
Qed.

(** [C3] When an attempt fails with a context-overflow error and the
    loop stops there (the attempt was the last one allowed), [chat]
    raises [ValueError("Context window exceeded. Use
    overflow_summarize.v1 prompt.") from e] when the pre-flight fit did
    not flag overflow, and re-raises [e] itself when it did. *)
Theorem retry_context_overflow_signal max_retries backoff_ms call token_counts
    overflow_handled tr x a e :
  run_retry_loop max_retries backoff_ms call token_counts overflow_handled = (tr, Raised x) ->
  last tr = Some a -> call a = inl e -> is_context_overflow e = true ->
  (max_retries <= Z.of_nat a)%Z /\
  x = (if overflow_handled then e else ChainedValueError overflow_message e).
Proof.
  intros Hrun Hlast Hcall Hov. unfold run_retry_loop in Hrun.
  assert (Hne : tr <> []) by (intros ->; discriminate).
  assert (Hpos : (0 < max_retries + 1)%Z).
  { destruct (Z.to_nat (max_retries + 1)) eqn:E.
    - simpl in Hrun. injection Hrun as <- _. done.
    - lia. }
  destruct (retry_loop_raised max_retries backoff_ms call token_counts overflow_handled
              (Z.to_nat (max_retries + 1)) 0 0%Z 0%Z None tr x
              ltac:(rewrite Nat.add_0_l, Z2Nat.id; lia) Hrun Hne)
    as (a' & e' & Hl & Hc & Hno & Hx).
  rewrite Hlast in Hl. injection Hl as <-. rewrite Hcall in Hc. injection Hc as <-.
  rewrite (is_context_overflow_retryable e Hov), andb_true_r in Hno.
  apply Z.ltb_ge in Hno. split; [exact Hno|].
  rewrite Hx, Hov. destruct overflow_handled; done.
Qed.

(** Two attempts failing with a provider context-length error, one retry
    allowed, no pre-flight overflow: the summarization signal. *)
Lemma retry_context_overflow_signal_witness :
  let err := PyExc "BadRequestError" "Error code: 400 - context_length_exceeded" in
  run_retry_loop 1 (fun _ => 1000%Z) (fun _ => inl err) ∅ false =
    ([0; 1], Raised (ChainedValueError overflow_message err)) /\
  ((1 <= Z.of_nat 1)%Z /\
   ChainedValueError overflow_message err =
     (if false then err else ChainedValueError overflow_message err)).
Proof.
  split; [reflexivity|].
  apply (retry_context_overflow_signal 1 (fun _ => 1000%Z)
           (fun _ => inl (PyExc "BadRequestError" "Error code: 400 - context_length_exceeded"))
           ∅ false [0; 1]); reflexivity.
Defined.

(** ** Object identity and mutation in the fitter *)

Lemma alloc_fresh (h : Heap) o : h !! (alloc h o).2 = None.
Proof. unfold alloc; simpl. apply not_elem_of_dom, is_fresh. Qed.

Lemma alloc_subseteq (h : Heap) o : h ⊆ (alloc h o).1.
Proof. unfold alloc; simpl. apply insert_subseteq, not_elem_of_dom, is_fresh. Qed.

Arguments alloc : simpl never.

(** Allocate, naming the new heap and location, and record that the old
    heap is included in the new one and the location was free. *)
Ltac name_alloc Hsub Hfree :=
  match goal with
  | |- context [alloc ?hh ?oo] =>
      let E := fresh "Ealloc" in
      pose proof (alloc_subseteq hh oo) as Hsub;
      pose proof (alloc_fresh hh oo) as Hfree;
      destruct (alloc hh oo) as [? ?] eqn:E;
      cbn in Hsub, Hfree
  end.

Lemma pop_loop_heap_subseteq gk provider model mx ctx fuel (h0 h h' : Heap) sl ol :
  h0 ⊆ h -> h0 !! ol = None ->
  pop_loop_heap gk provider model mx ctx fuel h sl ol = Some h' -> h0 ⊆ h'.
Proof.
  revert h. induction fuel as [|fuel IH]; intros h Hsub Hol Hrun; simpl in Hrun.
  - injection Hrun as <-. done.
  - destruct (list_items h ol) as [items|]; simpl in Hrun; [|discriminate].
    destruct (1 <? length items)%nat; [|injection Hrun as <-; done].
    destruct (read_messages h sl); simpl in Hrun; [|discriminate].
    destruct (read_messages h ol); simpl in Hrun; [|discriminate].
    destruct (_ <? _)%Z; [|injection Hrun as <-; done].
    exact (IH _ (insert_subseteq_r _ _ _ _ Hol Hsub) Hol Hrun).
Qed.

Lemma truncate_last_heap_subseteq gk provider model mx ctx (h0 h h' : Heap) sl ol :
  h0 ⊆ h -> h0 !! ol = None ->
  truncate_last_heap gk provider model mx ctx h sl ol = Some h' -> h0 ⊆ h'.
Proof.
  intros Hsub Hol. unfold truncate_last_heap.
  destruct (read_messages h sl); simpl; [|discriminate].
  destruct (list_items h ol) as [items|]; simpl; [|discriminate].
  destruct (read_items h items); simpl; [|discriminate].
  destruct (_ && _); [|intros [= <-]; done].
  destruct (last items) as [[dl|s]|]; try discriminate.
  destruct (read_dict h dl) as [last_msg|]; simpl; [|discriminate].
  destruct (_ <? _)%Z; [|intros [= <-]; done].
  intros [= <-].
  apply insert_subseteq_r; [done|].
  apply insert_subseteq_r; [|done].
  eapply lookup_weaken_None; [apply not_elem_of_dom, is_fresh|exact Hsub].
Qed.

(** [C10] [fit_within_context] mutates none of its arguments: every
    object of the heap it starts from (the messages list, each message
    dict, the context list) is unchanged afterwards, the context list
    returned is the one passed in, and whenever [overflow = false] the
    returned messages list is the very object passed in. *)
Theorem fit_within_context_heap_frame gk (h : Heap) ml provider model mx strategy cl
    (h' : Heap) rl rc meta :
  fit_within_context_heap gk h ml provider model mx strategy cl = Some (h', rl, rc, meta) ->
  (forall l o, h !! l = Some o -> h' !! l = Some o) /\
  rc = cl /\
  (fm_overflow meta = false -> rl = ml).
Proof.
  unfold fit_within_context_heap.
  destruct (read_messages h ml) as [messages|]; cbn -[alloc]; [|discriminate].
  destruct (read_context h cl) as [ctx|]; cbn -[alloc]; [|discriminate].
  destruct (_ <=? mx)%Z. { intros [= <- <- <- <-]. done. }
  destruct (String.eqb strategy "truncate").
  - destruct (list_items h ml) as [items|]; cbn -[alloc]; [|discriminate].
    name_alloc S1 F1.
    match goal with |- context [list_items ?hh ?ll] =>
      destruct (list_items hh ll) as [adjusted|]; cbn -[alloc]; [|discriminate] end.
    name_alloc S2 F2. name_alloc S3 F3.
    match goal with |- context [pop_loop_heap ?a ?b ?c ?d ?e ?f ?g ?i ?j] =>
      destruct (pop_loop_heap a b c d e f g i j) as [h4|] eqn:E4; cbn -[alloc]; [|discriminate] end.
    match goal with |- context [truncate_last_heap ?a ?b ?c ?d ?e ?f ?g ?i] =>
      destruct (truncate_last_heap a b c d e f g i) as [h5|] eqn:E5; cbn -[alloc]; [|discriminate] end.
    match goal with |- context [list_items h5 ?ll] =>
      destruct (list_items h5 ll); cbn -[alloc]; [|discriminate] end.
    match goal with |- context [list_items h5 ?ll] =>
      destruct (list_items h5 ll); cbn -[alloc]; [|discriminate] end.
    name_alloc S6 F6. intros [= <- <- <- <-].
    assert (Hol : h !! p1 = None).
    { eapply lookup_weaken_None; [exact F3|]. by transitivity g. }
    assert (S36 : h ⊆ g1) by (transitivity g; [done|]; by transitivity g0).
    pose proof (pop_loop_heap_subseteq _ _ _ _ _ _ h _ _ _ _ S36 Hol E4) as S4.
    pose proof (truncate_last_heap_subseteq _ _ _ _ _ h _ _ _ _ S4 Hol E5) as S5.
    split; [|split; [done|discriminate]].
    apply map_subseteq_spec. by transitivity h5.
  - destruct (String.eqb strategy "summarize"); intros [= <- <- <- <-]; done.
Qed.

Lemma fit_within_context_heap_frame_witness :
  match fit_within_context_heap byte_tiktoken example_heap 1 openai "gpt-4o" 20
          "truncate" None with
  | Some (h', rl, rc, meta) =>
      (forall l o, example_heap !! l = Some o -> h' !! l = Some o) /\
      rc = None /\ (fm_overflow meta = false -> rl = 1%positive)
  | None => False
  end.
Proof.
  destruct (fit_within_context_heap byte_tiktoken example_heap 1 openai "gpt-4o" 20
              "truncate" None) as [[[[h' rl] rc] meta]|] eqn:E.
  - exact (fit_within_context_heap_frame _ _ _ _ _ _ _ _ _ _ _ _ E).
  - vm_compute in E. discriminate.
Defined.

(* ================================================================== *)
(** * Further properties of the code *)

(** ** Token estimation *)

Lemma ascii_lower_idem c : ascii_lower (ascii_lower c) = ascii_lower c.
Proof. destruct c as [[] [] [] [] [] [] [] []]; reflexivity. Qed.

Lemma lower_idem s : lower (lower s) = lower s.
Proof. induction s as [|c s IH]; simpl; [done|]. by rewrite ascii_lower_idem, IH. Qed.

(** [X1] The encoding is chosen from the lower-cased model name: model
    names differing only in letter case get the same encoding, hence
    the same token counts. *)
Theorem pick_encoding_case_insensitive gk provider model :
  pick_encoding gk provider (lower model) = pick_encoding gk provider model.
Proof. destruct provider; simpl; try done. by rewrite lower_idem. Qed.

Lemma input_tokens_of_perm enc (ms1 ms2 : list Message) :
  ms1 ≡ₚ ms2 -> input_tokens_of enc ms1 = input_tokens_of enc ms2.
Proof. induction 1; simpl; lia. Qed.

Lemma context_tokens_of_perm enc (cs1 cs2 : list string) :
  cs1 ≡ₚ cs2 -> context_tokens_of enc cs1 = context_tokens_of enc cs2.
Proof. induction 1; simpl; lia. Qed.

(** [X2] The estimate does not depend on the order of the messages nor
    on the order of the context strings. *)
Theorem estimate_prompt_tokens_perm gk provider model (ms1 ms2 : list Message)
    (cs1 cs2 : list string) :
  ms1 ≡ₚ ms2 -> cs1 ≡ₚ cs2 ->
  estimate_prompt_tokens gk ms1 provider model (Some cs1) =
  estimate_prompt_tokens gk ms2 provider model (Some cs2).
Proof.
  intros Hm Hc. rewrite !estimate_prompt_tokens_eq. simpl.
  rewrite (input_tokens_of_perm _ _ _ Hm), (context_tokens_of_perm _ _ _ Hc). done.
Qed.

Lemma estimate_prompt_tokens_perm_witness :
  [mk_msg "user" "a"; mk_msg "assistant" "bc"] ≡ₚ [mk_msg "assistant" "bc"; mk_msg "user" "a"] /\
  ["doc one"; "doc two"] ≡ₚ ["doc two"; "doc one"] /\
  estimate_prompt_tokens byte_tiktoken [mk_msg "user" "a"; mk_msg "assistant" "bc"]
    openai "gpt-4o" (Some ["doc one"; "doc two"]) =
  estimate_prompt_tokens byte_tiktoken [mk_msg "assistant" "bc"; mk_msg "user" "a"]
    openai "gpt-4o" (Some ["doc two"; "doc one"]).
Proof.
  split; [apply perm_swap|]. split; [apply perm_swap|].
  apply estimate_prompt_tokens_perm; apply perm_swap.
Defined.

Lemma input_tokens_of_sublist enc (ms1 ms2 : list Message) :
  ms1 `sublist_of` ms2 ->
  (input_tokens_of enc ms1 + 4 * (Z.of_nat (length ms2) - Z.of_nat (length ms1))
   <= input_tokens_of enc ms2)%Z.
Proof. induction 1 as [| m l1 l2 _ IH | m l1 l2 _ IH]; simpl; unfold message_tokens in *; lia. Qed.

Lemma context_tokens_opt_nonneg enc ctx : (0 <= context_tokens_opt enc ctx)%Z.
Proof. destruct ctx as [cs|]; simpl; [|lia]. induction cs; simpl; lia. Qed.

(** [X3] Every message costs at least 4 estimated tokens and the array
    3 more, and removing messages (keeping the others in order) lowers
    the estimate by at least 4 per message removed. *)
Theorem estimate_prompt_tokens_sublist gk provider model ctx (ms1 ms2 : list Message) :
  ms1 `sublist_of` ms2 ->
  (4 * Z.of_nat (length ms2) + 3 <= estimate_prompt_tokens gk ms2 provider model ctx)%Z /\
  (estimate_prompt_tokens gk ms1 provider model ctx
     + 4 * (Z.of_nat (length ms2) - Z.of_nat (length ms1))
   <= estimate_prompt_tokens gk ms2 provider model ctx)%Z.
Proof.
  intros Hsub. rewrite !estimate_prompt_tokens_eq.
  pose proof (input_tokens_of_sublist (pick_encoding gk provider model) _ _ Hsub).
  pose proof (input_tokens_of_sublist (pick_encoding gk provider model) [] ms2
                (sublist_nil_l ms2)).
  pose proof (context_tokens_opt_nonneg (pick_encoding gk provider model) ctx).
  simpl in *. lia.
Qed.

Lemma estimate_prompt_tokens_sublist_witness :
  [mk_msg "user" "next"] `sublist_of` [mk_msg "user" "first"; mk_msg "user" "next"] /\
  (4 * 2 + 3 <= estimate_prompt_tokens byte_tiktoken
                  [mk_msg "user" "first"; mk_msg "user" "next"] groq "llama-3.1" None)%Z /\
  (estimate_prompt_tokens byte_tiktoken [mk_msg "user" "next"] groq "llama-3.1" None
     + 4 * (2 - 1)
   <= estimate_prompt_tokens byte_tiktoken
        [mk_msg "user" "first"; mk_msg "user" "next"] groq "llama-3.1" None)%Z.
Proof.
  split; [apply sublist_cons, sublist_skip, sublist_nil|].
  exact (estimate_prompt_tokens_sublist byte_tiktoken groq "llama-3.1" None
           [mk_msg "user" "next"] [mk_msg "user" "first"; mk_msg "user" "next"]
           (sublist_cons _ _ _ (sublist_skip _ _ _ sublist_nil))).
Defined.

(** ** Usage reconciliation *)

Lemma reconcile_usage_est_fields est usage :
  input_tokens_est (reconcile_usage est usage) = py_get est "input_tokens" 0%Z /\
  context_tokens_est (reconcile_usage est usage) = py_get est "context_tokens" 0%Z /\
  total_est (reconcile_usage est usage) = py_get est "estimated_total" 0%Z.
Proof.
  unfold reconcile_usage. destruct usage as [u|]; [|done].
  destruct (bool_decide _); [done|].
  destruct (u !! "prompt_tokens"); [done|]. destruct (u !! "promptTokenCount"); done.
Qed.

(** [X4] Reconciling the counts of [count_messages_tokens] keeps its
    estimates: [total_est] is the estimate of the messages and context,
    and equals [input_tokens_est + context_tokens_est + 3], whatever the
    provider usage. *)
Theorem reconcile_count_messages_tokens gk ms provider model ctx usage :
  let r := reconcile_usage (count_messages_tokens gk ms provider model ctx) usage in
  total_est r = estimate_prompt_tokens gk ms provider model ctx /\
  total_est r = (input_tokens_est r + context_tokens_est r + 3)%Z.
Proof.
  intros r. destruct (reconcile_usage_est_fields
                        (count_messages_tokens gk ms provider model ctx) usage)
    as (Hi & Hc & Ht).
  subst r. rewrite Hi, Hc, Ht. unfold py_get, estimate_prompt_tokens.
  unfold count_messages_tokens.
  rewrite (lookup_insert_ne _ "input_tokens" "estimated_total") by done.
  rewrite (lookup_insert_ne _ "context_tokens" "estimated_total") by done.
  rewrite lookup_insert_eq. split; [done|].
  rewrite lookup_insert_eq.
  rewrite (lookup_insert_ne _ "input_tokens" "context_tokens") by done.
  rewrite lookup_insert_eq. done.
Qed.

(** [X5] With the usage dict built by the OpenAI and Groq shims, the
    actual fields are the three counts of [response.usage], and all
    three are [None] (not 0) when the response carries no usage. *)
Theorem reconcile_openai_usage est u :
  let r := reconcile_usage est (Some (openai_usage_dict u)) in
  (prompt_tokens_actual r, completion_tokens_actual r, total_tokens_actual r) =
  match u with
  | Some (p, c, t) => (PyInt p, PyInt c, PyInt t)
  | None => (PyNone, PyNone, PyNone)
  end.
Proof.
  intros r. subst r. unfold reconcile_usage.
  rewrite bool_decide_eq_false_2
    by (destruct u as [[[p c] t]|]; apply insert_non_empty).
  destruct u as [[[p c] t]|]; reflexivity.
Qed.

(** [X6] With the usage dict built by the Gemini shim, the actual
    fields are the prompt and candidates counts, each [None] read as 0,
    and their sum; without [usage_metadata] the shim sends [{}] and all
    three actual fields stay [None]. *)
Theorem reconcile_google_usage est response :
  let r := reconcile_usage est (Some (reply_usage (google_reply response))) in
  (prompt_tokens_actual r, completion_tokens_actual r, total_tokens_actual r) =
  match gr_usage_metadata response with
  | Some (p, c) =>
      let p' := match p with Some n => n | None => 0%Z end in
      let c' := match c with Some n => n | None => 0%Z end in
      (PyInt p', PyInt c', PyInt (p' + c'))
  | None => (PyNone, PyNone, PyNone)
  end.
Proof.
  intros r. subst r. destruct response as [t [[p c]|]]; unfold reconcile_usage; simpl.
  - rewrite bool_decide_eq_false_2 by apply insert_non_empty.
    destruct p, c; reflexivity.
  - rewrite bool_decide_eq_true_2 by done. reflexivity.
Qed.

(** [X7] A non-empty usage dict carrying neither [prompt_tokens] nor
    [promptTokenCount] (for instance only [total_tokens]) is ignored:
    all three actual fields stay [None]. *)
Theorem reconcile_usage_unrecognised est (usage : gmap string PyVal) :
  usage !! "prompt_tokens" = None -> usage !! "promptTokenCount" = None ->
  let r := reconcile_usage est (Some usage) in
  (prompt_tokens_actual r, completion_tokens_actual r, total_tokens_actual r) =
  (PyNone, PyNone, PyNone).
Proof.
  intros H1 H2 r. subst r. unfold reconcile_usage.
  destruct (bool_decide _); [done|]. by rewrite H1, H2.
Qed.

Lemma reconcile_usage_unrecognised_witness :
  let usage : gmap string PyVal := <["total_tokens" := PyInt 42]> ∅ in
  usage !! "prompt_tokens" = None /\ usage !! "promptTokenCount" = None /\
  let r := reconcile_usage ∅ (Some usage) in
  (prompt_tokens_actual r, completion_tokens_actual r, total_tokens_actual r) =
  (PyNone, PyNone, PyNone).
Proof.
  split; [reflexivity|]. split; [reflexivity|].
  apply reconcile_usage_unrecognised; reflexivity.
Defined.

(** ** The truncate strategy keeps the latest turn *)

Lemma last_drop_lt {A} k (l : list A) : k < length l -> last (drop k l) = last l.
Proof.
  revert l. induction k as [|k IH]; intros [|x l] Hk; simpl in *; try (done || lia).
  rewrite last_cons, IH by lia.
  destruct (last l) eqn:E; [done|]. apply last_None in E. subst l. simpl in Hk. lia.
Qed.

(** [X8] Under the truncate strategy the most recent non-system message
    of an over-budget input is always kept as the last message of the
    result, unchanged or with only its [content] rewritten (its role and
    other keys intact). *)
Theorem fit_truncate_keeps_latest_turn gk msgs provider model mx ctx lm :
  (mx < estimate_prompt_tokens gk msgs provider model ctx)%Z ->
  last (List.filter (fun m => negb (is_system m)) msgs) = Some lm ->
  exists m',
    last (fit_within_context gk msgs provider model mx "truncate" ctx).1.1 = Some m' /\
    (m' = lm \/ exists c, m' = <["content" := c]> lm).
Proof.
  intros H Hlast.
  rewrite fit_truncate_eq by exact H. cbv zeta. simpl.
  set (sys := List.filter is_system msgs).
  set (others := List.filter (fun m => negb (is_system m)) msgs) in *.
  destruct (drop_oldest_spec gk provider model mx ctx sys others)
    as (k & Hk & Hle & Hall & _).
  rewrite Hk.
  assert (Hlt : k < length others).
  { destruct k as [|k'].
    - destruct others; [done|]. simpl. lia.
    - destruct (Hall k' ltac:(lia)) as [H1 _]. lia. }
  assert (Hdl : last (drop k others) = Some lm) by (rewrite last_drop_lt by exact Hlt; done).
  destruct (truncate_last_cases gk provider model mx ctx sys (drop k others))
    as [Heq | (pre & lm0 & c & Hd & Heq)]; rewrite Heq, last_app.
  - rewrite Hdl. eauto.
  - rewrite last_snoc. rewrite Hd, last_snoc in Hdl. injection Hdl as ->. eauto.
Qed.

Lemma fit_truncate_keeps_latest_turn_witness :
  let msgs := [mk_msg "system" "be brief"; mk_msg "user" "first question";
               mk_msg "assistant" "first answer"; mk_msg "user" "next"] in
  (30 < estimate_prompt_tokens byte_tiktoken msgs openai "gpt-4o" None)%Z /\
  last (List.filter (fun m => negb (is_system m)) msgs) = Some (mk_msg "user" "next") /\
  exists m',
    last (fit_within_context byte_tiktoken msgs openai "gpt-4o" 30 "truncate" None).1.1
      = Some m' /\
    (m' = mk_msg "user" "next" \/ exists c, m' = <["content" := c]> (mk_msg "user" "next")).
Proof.
  split; [vm_compute; reflexivity|]. split; [vm_compute; reflexivity|].
  exact (fit_truncate_keeps_latest_turn byte_tiktoken
           [mk_msg "system" "be brief"; mk_msg "user" "first question";
            mk_msg "assistant" "first answer"; mk_msg "user" "next"]
           openai "gpt-4o" 30 None (mk_msg "user" "next")
           ltac:(vm_compute; reflexivity) ltac:(vm_compute; reflexivity)).
Defined.

(** ** The retry loop and [chat] *)

Section RetryFacts.

Variables (max_retries : Z) (backoff_ms : nat -> Z) (call : nat -> Exn + ProviderReply).
Variables (token_counts : gmap string Z) (overflow_handled : bool).

Local Abbreviation loop := (retry_loop max_retries backoff_ms call token_counts overflow_handled).

Lemma retry_loop_returned fuel attempt rc bt le tr o :
  loop fuel attempt rc bt le = (tr, Returned o) ->
  exists r,
    last tr = Some (attempt + (length tr - 1)) /\
    call (attempt + (length tr - 1)) = inr r /\
    out_text o = reply_text r /\
    out_usage o = reconcile_usage token_counts (Some (reply_usage r)) /\
    meta_retry_count (out_meta o) = (rc + Z.of_nat (length tr - 1))%Z /\
    meta_backoff_ms_total (out_meta o) =
      (bt + foldr Z.add 0%Z (map backoff_ms (seq attempt (length tr - 1))))%Z /\
    meta_overflow_handled (out_meta o) = overflow_handled.
Proof.
  revert attempt rc bt le tr.
  induction fuel as [|fuel IH]; intros attempt rc bt le tr Hrun; simpl in Hrun;
    [discriminate|].
  destruct (call attempt) as [e|resp] eqn:Ecall.
  - destruct ((Z.of_nat attempt <? max_retries)%Z && is_retryable_error e).
    + destruct (loop fuel (S attempt) (rc + 1)%Z (bt + backoff_ms attempt)%Z (Some e))
        as [tr' r'] eqn:Erec.
      injection Hrun as <- ->.
      destruct (IH _ _ _ _ _ Erec) as (r & Hl & Hc & Ht & Hu & Hrc & Hbt & Ho).
      assert (Hne : tr' <> []) by (intros ->; discriminate).
      destruct tr' as [|a tr'']; [done|].
      exists r. simpl length in *.
      replace (S (length tr'') - 1) with (length tr'') in * by lia.
      replace (S (S (length tr'')) - 1) with (S (length tr'')) by lia.
      replace (attempt + S (length tr'')) with (S attempt + length tr'') by lia.
      repeat split; try done.
      all: first [rewrite Hrc; lia | rewrite Hbt; simpl; lia].
    + destruct (_ && _); discriminate.
  - injection Hrun as <- <-. exists resp. simpl.
    rewrite Nat.add_0_r. repeat split; try done; simpl; lia.
Qed.

Lemma retry_loop_stops fuel attempt rc bt le i :
  In i (loop fuel attempt rc bt le).1 ->
  match call i with inr _ => True | inl e => is_retryable_error e = false end ->
  last (loop fuel attempt rc bt le).1 = Some i.
Proof.
  revert attempt rc bt le.
  induction fuel as [|fuel IH]; intros attempt rc bt le; simpl; [done|].
  destruct (call attempt) as [e|resp] eqn:Ecall.
  - destruct ((Z.of_nat attempt <? max_retries)%Z && is_retryable_error e) eqn:Eretry.
    + specialize (IH (S attempt) (rc + 1)%Z (bt + backoff_ms attempt)%Z (Some e)).
      destruct (loop fuel _ _ _ _) as [tr r]. simpl in *.
      intros [<- | Hin] Hstop.
      * rewrite Ecall in Hstop. apply andb_true_iff in Eretry as [_ Er].
        rewrite Er in Hstop. discriminate.
      * rewrite last_cons, (IH Hin Hstop). done.
    + destruct (is_context_overflow e && negb overflow_handled);
        simpl; intros [<- | []] _; done.
  - simpl. intros [<- | []] _. done.
Qed.

Lemma retry_loop_final fuel attempt rc bt le :
  Z.of_nat (attempt + fuel) = (max_retries + 1)%Z ->
  let '(tr, res) := loop fuel attempt rc bt le in
  match last tr with
  | None => fuel = 0
  | Some a =>
      match call a with
      | inr r => exists o, res = Returned o /\ out_text o = reply_text r
      | inl e =>
          res = Raised (if is_context_overflow e && negb overflow_handled
                        then ChainedValueError overflow_message e else e)
      end
  end.
Proof.
  revert attempt rc bt le.
  induction fuel as [|fuel IH]; intros attempt rc bt le Hinv; simpl; [done|].
  destruct (call attempt) as [e|resp] eqn:Ecall.
  - destruct ((Z.of_nat attempt <? max_retries)%Z && is_retryable_error e) eqn:Eretry.
    + specialize (IH (S attempt) (rc + 1)%Z (bt + backoff_ms attempt)%Z (Some e)
                    ltac:(lia)).
      destruct (loop fuel _ _ _ _) as [tr r]. simpl.
      rewrite last_cons. destruct (last tr) as [a|].
      * exact IH.
      * apply andb_true_iff in Eretry as [Elt _]. apply Z.ltb_lt in Elt. lia.
    + destruct (is_context_overflow e && negb overflow_handled) eqn:Eov;
        simpl; rewrite Ecall, Eov; done.
  - simpl. rewrite Ecall. eexists. split; [reflexivity|]. done.
Qed.

End RetryFacts.

Section RetrySleepFacts.

Variables (max_retries : Z) (call : nat -> Exn + ProviderReply).
Variables (token_counts : gmap string Z) (overflow_handled : bool).
Variable backoff : nat -> Exn + Z.

Local Abbreviation loop_sleep :=
  (retry_loop_sleep max_retries call token_counts overflow_handled backoff).

Lemma retry_loop_sleep_final fuel attempt rc bt le :
  Z.of_nat (attempt + fuel) = (max_retries + 1)%Z ->
  let '(tr, res) := loop_sleep fuel attempt rc bt le in
  match last tr with
  | None => fuel = 0
  | Some a =>
      match call a with
      | inr r => exists o, res = Returned o /\ out_text o = reply_text r
      | inl e =>
          if (Z.of_nat a <? max_retries)%Z && is_retryable_error e then
            exists s, backoff a = inl s /\ res = Raised s
          else
            res = Raised (if is_context_overflow e && negb overflow_handled
                          then ChainedValueError overflow_message e else e)
      end
  end.
Proof.
  revert attempt rc bt le.
  induction fuel as [|fuel IH]; intros attempt rc bt le Hinv; simpl; [done|].
  destruct (call attempt) as [e|resp] eqn:Ecall.
  - destruct ((Z.of_nat attempt <? max_retries)%Z && is_retryable_error e) eqn:Eretry.
    + destruct (backoff attempt) as [s|ms] eqn:Eb.
      * simpl. rewrite Ecall, Eretry. exists s. done.
      * specialize (IH (S attempt) (rc + 1)%Z (bt + ms)%Z (Some e) ltac:(lia)).
        destruct (loop_sleep fuel _ _ _ _) as [tr r]. simpl.
        rewrite last_cons. destruct (last tr) as [a|].
        -- exact IH.
        -- apply andb_true_iff in Eretry as [Elt _]. apply Z.ltb_lt in Elt. lia.
    + simpl. destruct (is_context_overflow e && negb overflow_handled) eqn:Eov;
        simpl; rewrite Ecall, Eretry, Eov; done.
  - simpl. rewrite Ecall. eexists. split; [reflexivity|]. done.
Qed.

End RetrySleepFacts.

(** When every backoff computation and sleep succeeds, the loop is
    [retry_loop]. *)
Lemma retry_loop_sleep_total max_retries backoff_ms call tc oh fuel attempt rc bt le :
  retry_loop_sleep max_retries call tc oh (fun i => inr (backoff_ms i)) fuel attempt rc bt le =
  retry_loop max_retries backoff_ms call tc oh fuel attempt rc bt le.
Proof.
  revert attempt rc bt le.
  induction fuel as [|fuel IH]; intros attempt rc bt le; simpl; [done|].
  destruct (call attempt) as [e|resp]; [|done].
  destruct (_ && _); [rewrite IH|]; done.
Qed.

Lemma chat_sleep_total gk c b backoff_ms messages context_strs :
  chat_sleep gk c b (fun i => inr (backoff_ms i)) messages context_strs =
  chat gk c b backoff_ms messages context_strs.
Proof.
  unfold chat_sleep, chat.
  destruct (chat_preflight gk c messages context_strs) as [[[m' ctx'] oh] tc].
  apply retry_loop_sleep_total.
Qed.

(** [chat_preflight] hands on the counts of the messages it returns. *)
Lemma chat_preflight_counts gk c ms ctx :
  let pf := chat_preflight gk c ms ctx in
  pf.2 = count_messages_tokens gk pf.1.1.1 (client_provider c) (client_model c) pf.1.1.2.
Proof.
  unfold chat_preflight. destruct (client_hard_prompt_cap c) as [cap|]; [|done].
  destruct (_ && _); [|done].
  destruct (fit_within_context _ _ _ _ _ _ _) as [[m' ctx'] meta]. done.
Qed.

(** [X10] When [chat] returns after [n + 1] attempts, the text is the one
    of attempt [n], sent with the messages left by the pre-flight fit;
    [meta.retry_count] is [n]; [meta.backoff_ms_total] is the sum of the
    backoffs of attempts [0 .. n-1]; [meta.overflow_handled] is the
    pre-flight flag; and the usage is the reconciliation of that
    attempt's usage with the counts of the messages and context actually
    sent, so [total_est] is their estimate. *)
Theorem chat_success_meta gk c b backoff_ms messages context_strs tr o :
  chat gk c b backoff_ms messages context_strs = (tr, Returned o) ->
  let pf := chat_preflight gk c messages context_strs in
  let n := length tr - 1 in
  exists r,
    last tr = Some n /\
    dispatch (client_provider c) b pf.1.1.1 n = inr r /\
    out_text o = reply_text r /\
    out_usage o = reconcile_usage pf.2 (Some (reply_usage r)) /\
    total_est (out_usage o) =
      estimate_prompt_tokens gk pf.1.1.1 (client_provider c) (client_model c) pf.1.1.2 /\
    meta_retry_count (out_meta o) = Z.of_nat n /\
    meta_backoff_ms_total (out_meta o) = foldr Z.add 0%Z (map backoff_ms (seq 0 n)) /\
    meta_overflow_handled (out_meta o) = pf.1.2.
Proof.
  intros Hrun pf n.
  pose proof (chat_preflight_counts gk c messages context_strs) as Hcounts.
  subst pf n. unfold chat in Hrun.
  destruct (chat_preflight gk c messages context_strs) as [[[m' ctx'] oh] tc].
  simpl in *.
  destruct (retry_loop_returned _ _ _ _ _ _ _ _ _ _ _ _ Hrun)
    as (r & Hl & Hc & Ht & Hu & Hrc & Hbt & Ho).
  exists r. rewrite Nat.add_0_l in Hl, Hc.
  repeat split; try done.
  all: first
    [ rewrite Hrc; lia
    | rewrite Hbt; lia
    | rewrite Hu; unfold reconcile_usage;
      destruct (bool_decide _); [|destruct (_ !! "prompt_tokens");
                                  [|destruct (_ !! "promptTokenCount")]];
      simpl; rewrite Hcounts; reflexivity ].
Qed.

Lemma chat_success_meta_witness :
  match chat byte_tiktoken example_client example_backend (fun _ => 500%Z)
          [mk_msg "user" "hi"] None with
  | (tr, Returned o) =>
      let pf := chat_preflight byte_tiktoken example_client [mk_msg "user" "hi"] None in
      let n := length tr - 1 in
      exists r,
        last tr = Some n /\
        dispatch (client_provider example_client) example_backend pf.1.1.1 n = inr r /\
        out_text o = reply_text r /\
        out_usage o = reconcile_usage pf.2 (Some (reply_usage r)) /\
        total_est (out_usage o) =
          estimate_prompt_tokens byte_tiktoken pf.1.1.1 (client_provider example_client)
            (client_model example_client) pf.1.1.2 /\
        meta_retry_count (out_meta o) = Z.of_nat n /\
        meta_backoff_ms_total (out_meta o) = foldr Z.add 0%Z (map (fun _ => 500%Z) (seq 0 n)) /\
        meta_overflow_handled (out_meta o) = pf.1.2
  | _ => False
  end.
Proof.
  destruct (chat byte_tiktoken example_client example_backend (fun _ => 500%Z)
              [mk_msg "user" "hi"] None) as [tr [o|x]] eqn:E.
  - exact (chat_success_meta byte_tiktoken example_client example_backend
             (fun _ => 500%Z) [mk_msg "user" "hi"] None tr o E).
  - vm_compute in E. discriminate.
Defined.

(** [X11] [chat] never calls the provider again after an attempt that
    succeeded or failed with a non-retryable error: such an attempt is
    the last one. *)
Theorem chat_stops_at_final_attempt gk c b backoff_ms messages context_strs i :
  In i (chat gk c b backoff_ms messages context_strs).1 ->
  match dispatch (client_provider c) b
          (chat_preflight gk c messages context_strs).1.1.1 i with
  | inr _ => True
  | inl e => is_retryable_error e = false
  end ->
  last (chat gk c b backoff_ms messages context_strs).1 = Some i.
Proof.
  unfold chat.
  destruct (chat_preflight gk c messages context_strs) as [[[m' ctx'] oh] tc].
  apply retry_loop_stops.
Qed.

Lemma chat_stops_at_final_attempt_witness :
  let b := {| openai_create := fun _ _ => inl (PyExc "AuthenticationError" "Error code: 401");
              google_generate := fun _ _ => inl (PyExc "Exception" "unused");
              groq_create := fun _ _ => inl (PyExc "Exception" "unused") |} in
  In 0 (chat byte_tiktoken example_client b (fun _ => 500%Z) [mk_msg "user" "hi"] None).1 /\
  is_retryable_error (PyExc "AuthenticationError" "Error code: 401") = false /\
  last (chat byte_tiktoken example_client b (fun _ => 500%Z) [mk_msg "user" "hi"] None).1
    = Some 0.
Proof.
  split; [vm_compute; left; reflexivity|]. split; [vm_compute; reflexivity|].
  apply chat_stops_at_final_attempt; vm_compute; [left; reflexivity|reflexivity].
Defined.

(** [X12] The outcome of [chat] is that of its last attempt: its reply
    text when it succeeded; when it failed with a retryable error while
    retries were left, the exception raised by the backoff computation or
    [time.sleep] of that retry; otherwise its exception (wrapped in the
    summarization [ValueError] for a context overflow without pre-flight
    overflow handling). The fallback [Exception("Unknown error in LLM
    call")] is raised only when no attempt is made at all, which happens
    exactly when [max_retries < 0]. *)
Theorem chat_result_of_last_attempt gk c b backoff messages context_strs :
  let pf := chat_preflight gk c messages context_strs in
  let '(tr, res) := chat_sleep gk c b backoff messages context_strs in
  match last tr with
  | None =>
      (client_max_retries c < 0)%Z /\
      res = Raised (PyExc "Exception" "Unknown error in LLM call")
  | Some a =>
      (0 <= client_max_retries c)%Z /\
      match dispatch (client_provider c) b pf.1.1.1 a with
      | inr r => exists o, res = Returned o /\ out_text o = reply_text r
      | inl e =>
          if (Z.of_nat a <? client_max_retries c)%Z && is_retryable_error e then
            exists s, backoff a = inl s /\ res = Raised s
          else
            res = Raised (if is_context_overflow e && negb pf.1.2
                          then ChainedValueError overflow_message e else e)
      end
  end.
Proof.
  intros pf. subst pf. unfold chat_sleep.
  destruct (chat_preflight gk c messages context_strs) as [[[m' ctx'] oh] tc]. simpl.
  unfold run_retry_loop_sleep.
  destruct (Z_le_gt_dec (client_max_retries c + 1) 0) as [Hneg|Hpos].
  - replace (Z.to_nat (client_max_retries c + 1)) with 0 by lia.
    simpl. split; [lia|done].
  - pose proof (retry_loop_sleep_final (client_max_retries c)
                  (dispatch (client_provider c) b m') tc oh backoff
                  (Z.to_nat (client_max_retries c + 1)) 0 0%Z 0%Z None
                  ltac:(rewrite Nat.add_0_l, Z2Nat.id; lia)) as Hf.
    destruct (retry_loop_sleep _ _ _ _ _ _ _ _ _ _) as [tr res].
    destruct (last tr) as [a|].
    + split; [lia|exact Hf].
    + exfalso. lia.
Qed.

(** [X13] The pre-flight of [chat] flags [overflow_handled] exactly when
    a non-zero [hard_prompt_cap] is set and the estimate exceeds it (a
    negative cap therefore always triggers the truncate fit); when it is
    not flagged, the messages and context are sent as given. The counts
    used for reconciliation are those of what is sent. *)
Theorem chat_preflight_overflow_flag gk c messages context_strs :
  let pf := chat_preflight gk c messages context_strs in
  (pf.1.2 = true <->
   exists cap, client_hard_prompt_cap c = Some cap /\ cap <> 0%Z /\
     (cap < estimate_prompt_tokens gk messages (client_provider c) (client_model c)
              context_strs)%Z) /\
  (pf.1.2 = false -> pf.1.1.1 = messages /\ pf.1.1.2 = context_strs) /\
  pf.2 = count_messages_tokens gk pf.1.1.1 (client_provider c) (client_model c) pf.1.1.2.
Proof.
  intros pf. split; [|split]; [| |apply chat_preflight_counts]; subst pf;
    unfold chat_preflight.
  - destruct (client_hard_prompt_cap c) as [cap|].
    + destruct (negb (cap =? 0)%Z &&
                (cap <? py_get (count_messages_tokens gk messages (client_provider c)
                                  (client_model c) context_strs) "estimated_total" 0)%Z)
        eqn:E.
      * apply andb_true_iff in E as [E1 E2]. apply negb_true_iff, Z.eqb_neq in E1.
        apply Z.ltb_lt in E2.
        change (py_get _ "estimated_total" 0%Z) with
          (estimate_prompt_tokens gk messages (client_provider c) (client_model c)
             context_strs) in E2.
        rewrite fit_truncate_eq by exact E2. simpl.
        split; [intros _; eauto|done].
      * simpl. split; [done|]. intros (cap' & [= <-] & Hne & Hlt).
        apply andb_false_iff in E as [E|E].
        -- apply negb_false_iff, Z.eqb_eq in E. done.
        -- apply Z.ltb_ge in E. change (py_get _ "estimated_total" 0%Z) with
             (estimate_prompt_tokens gk messages (client_provider c) (client_model c)
                context_strs) in E. lia.
    + simpl. split; [done|]. intros (cap' & [=] & _).
  - destruct (client_hard_prompt_cap c) as [cap|]; [|done].
    destruct (_ && _) eqn:E; [|done].
    apply andb_true_iff in E as [_ E2]. apply Z.ltb_lt in E2.
    change (py_get _ "estimated_total" 0%Z) with
      (estimate_prompt_tokens gk messages (client_provider c) (client_model c)
         context_strs) in E2.
    rewrite fit_truncate_eq by exact E2. simpl. done.
Qed.

(** [X14] An OpenAI response without choices makes [_call_openai] raise
    [IndexError], which is not retryable: [chat] raises it after that
    single attempt, whatever [max_retries] is. *)
Theorem chat_openai_no_choices_raises gk c b backoff_ms messages context_strs cc :
  client_provider c = openai -> (0 <= client_max_retries c)%Z ->
  (forall msgs, openai_create b msgs 0 = inr cc) -> cc_choices cc = [] ->
  chat gk c b backoff_ms messages context_strs = ([0], Raised index_error).
Proof.
  intros Hp Hmr Hcreate Hch. unfold chat.
  destruct (chat_preflight gk c messages context_strs) as [[[m' ctx'] oh] tc].
  unfold run_retry_loop. rewrite Hp.
  destruct (Z.to_nat (client_max_retries c + 1)) eqn:En; [lia|].
  simpl. rewrite Hcreate. simpl. rewrite Hch. simpl.
  rewrite andb_false_r. reflexivity.
Qed.

Lemma chat_openai_no_choices_raises_witness :
  let b := {| openai_create := fun _ _ => inr {| cc_choices := []; cc_usage := None |};
              google_generate := fun _ _ => inl (PyExc "Exception" "unused");
              groq_create := fun _ _ => inl (PyExc "Exception" "unused") |} in
  chat byte_tiktoken example_client b (fun _ => 500%Z) [mk_msg "user" "hi"] None =
    ([0], Raised index_error).
Proof.
  apply (chat_openai_no_choices_raises byte_tiktoken example_client _ _ _ _
           {| cc_choices := []; cc_usage := None |}).
  - reflexivity.
  - vm_compute. discriminate.
  - intros msgs. reflexivity.
  - reflexivity.
Defined.

(** ** The Gemini conversion and request parameters *)

Lemma to_gemini_ok ms si :
  Forall (fun m => is_Some (m !! "role") /\ is_Some (m !! "content")) ms ->
  to_gemini ms si =
    inr (match last (filter (fun m => m !! "role" = Some "system") ms) with
         | Some m => m !! "content"
         | None => si
         end,
         map (fun m => {| gc_role := if decide (m !! "role" = Some "assistant")
                                     then "model" else "user";
                          gc_text := default "" (m !! "content") |})
             (filter (fun m => m !! "role" = Some "user" \/ m !! "role" = Some "assistant")
                ms)).
Proof.
  revert si. induction ms as [|m ms IH]; intros si Hall; [done|].
  apply Forall_cons in Hall as [[[role Er] [content Ec]] Hall].
  simpl. rewrite Er, Ec, IH by exact Hall.
  rewrite !filter_cons. rewrite Er.
  destruct (String.eqb_spec role "system") as [->|Hs].
  - rewrite decide_True by done. rewrite last_cons.
    rewrite decide_False by (intros [|]; discriminate).
    destruct (last _); simpl; rewrite ?Ec; done.
  - rewrite decide_False by congruence.
    destruct (String.eqb_spec role "user") as [->|Hu].
    + rewrite decide_True by auto. simpl. rewrite Er, Ec. done.
    + destruct (String.eqb_spec role "assistant") as [->|Ha].
      * rewrite decide_True by auto. simpl. rewrite Er, Ec. done.
      * rewrite decide_False by (intros [|]; congruence). done.
Qed.

(** [X15] When every message has a ["role"] and a ["content"], the
    conversion of [_call_google] succeeds: the system instruction is the
    content of the last system message, and the Gemini contents are the
    user and assistant messages in their order, an assistant turn
    becoming a ["model"] turn; messages of any other role are dropped. *)
Theorem to_gemini_conversion ms :
  Forall (fun m => is_Some (m !! "role") /\ is_Some (m !! "content")) ms ->
  to_gemini ms None =
    inr (match last (filter (fun m => m !! "role" = Some "system") ms) with
         | Some m => m !! "content"
         | None => None
         end,
         map (fun m => {| gc_role := if decide (m !! "role" = Some "assistant")
                                     then "model" else "user";
                          gc_text := default "" (m !! "content") |})
             (filter (fun m => m !! "role" = Some "user" \/ m !! "role" = Some "assistant")
                ms)).
Proof. apply to_gemini_ok. Qed.

Lemma to_gemini_conversion_witness :
  Forall (fun m => is_Some (m !! "role") /\ is_Some (m !! "content"))
    [mk_msg "system" "old"; mk_msg "user" "q"; mk_msg "tool" "t";
     mk_msg "system" "new"; mk_msg "assistant" "a"] /\
  to_gemini [mk_msg "system" "old"; mk_msg "user" "q"; mk_msg "tool" "t";
             mk_msg "system" "new"; mk_msg "assistant" "a"] None =
    inr (Some "new", [ {| gc_role := "user"; gc_text := "q" |};
                       {| gc_role := "model"; gc_text := "a" |} ]).
Proof.
  assert (H : Forall (fun m => is_Some (m !! "role") /\ is_Some (m !! "content"))
    [mk_msg "system" "old"; mk_msg "user" "q"; mk_msg "tool" "t";
     mk_msg "system" "new"; mk_msg "assistant" "a"])
    by (repeat constructor; eexists; reflexivity).
  split; [exact H|].
  rewrite (to_gemini_conversion _ H). vm_compute. reflexivity.
Defined.

(** [X16] The conversion of [_call_google] fails with [e] exactly when
    some message lacks ["role"] or ["content"], and [e] is then the
    [KeyError] of the key missing from the first such message: ['role']
    when its ["role"] is missing, otherwise ['content']. *)
Theorem to_gemini_key_error ms si e :
  to_gemini ms si = inl e <->
  exists pre m post,
    ms = pre ++ m :: post /\
    Forall (fun m' => is_Some (m' !! "role") /\ is_Some (m' !! "content")) pre /\
    ((m !! "role" = None /\ e = PyExc "KeyError" "'role'") \/
     (is_Some (m !! "role") /\ m !! "content" = None /\
      e = PyExc "KeyError" "'content'")).
Proof.
  revert si. induction ms as [|m0 ms IH]; intros si; simpl.
  - split; [discriminate|]. intros (pre & m & post & Hms & _).
    destruct pre; discriminate.
  - destruct (m0 !! "role") as [role|] eqn:Er.
    + destruct (m0 !! "content") as [content|] eqn:Ec.
      * transitivity (to_gemini ms (if String.eqb role "system" then Some content else si)
                      = inl e).
        { destruct (to_gemini ms _) as [e'|[si' cs]]; split; intros; congruence. }
        rewrite IH. split.
        -- intros (pre & m & post & -> & Hf & Hm).
           exists (m0 :: pre), m, post. split; [done|]. split; [|done].
           constructor; [rewrite Er, Ec; split; eexists; done|done].
        -- intros ([|m1 pre] & m & post & Hms & Hf & Hm); simpl in Hms;
             injection Hms as Hm0 Hms; subst.
           ++ rewrite Er, Ec in Hm. destruct Hm as [[? _]|(_ & ? & _)]; discriminate.
           ++ inversion Hf; subst. exists pre, m, post. done.
      * split.
        -- intros [= <-]. exists [], m0, ms. split; [done|]. split; [constructor|].
           right. rewrite Er. split; [eexists; done|done].
        -- intros ([|m1 pre] & m & post & Hms & Hf & Hm); simpl in Hms;
             injection Hms as Hm0 Hms; subst.
           ++ rewrite Er, Ec in Hm. destruct Hm as [[? _]|(_ & _ & ->)]; [discriminate|done].
           ++ inversion Hf as [|? ? [_ Hc]]; subst. rewrite Ec in Hc.
              destruct Hc; discriminate.
    + split.
      * intros [= <-]. exists [], m0, ms. split; [done|]. split; [constructor|].
        left. done.
      * intros ([|m1 pre] & m & post & Hms & Hf & Hm); simpl in Hms;
          injection Hms as Hm0 Hms; subst.
        -- rewrite Er in Hm. destruct Hm as [[_ ->]|([? ?] & _)]; [done|discriminate].
        -- inversion Hf as [|? ? [Hr _]]; subst. rewrite Er in Hr.
           destruct Hr; discriminate.
Qed.

(** [X17] The [GenerateContentConfig] of [_call_google] carries exactly
    the temperature, the [max_output_tokens] and the system instruction
    that are set, an empty system instruction counting as unset; with
    none of them set no config is sent ([config=None]). *)
Theorem google_config_params_fields t mt si :
  let si' := match si with
             | Some s => if String.eqb s "" then None else Some s
             | None => None
             end in
  match google_config_params t mt si with
  | None => t = None /\ mt = None /\ si' = None
  | Some cfg =>
      (is_Some t \/ is_Some mt \/ is_Some si') /\
      cfg !! "temperature" = YFloat <$> t /\
      cfg !! "max_output_tokens" = YInt <$> mt /\
      cfg !! "system_instruction" = YStr <$> si' /\
      (forall k, k <> "temperature" -> k <> "max_output_tokens" ->
                 k <> "system_instruction" -> cfg !! k = None)
  end.
Proof.
  intros si'. subst si'. unfold google_config_params.
  destruct si as [s|]; [destruct (String.eqb s "")|];
  destruct t as [t|], mt as [n|]; simpl;
    repeat first [ rewrite bool_decide_eq_false_2 by apply insert_non_empty
                 | rewrite bool_decide_eq_true_2 by done ];
    try done;
    (split; [eauto 10|]);
    repeat split;
    try (intros k ? ? ?);
    by simplify_map_eq.
Qed.




(** [X19] [_call_groq] builds the same request as [_call_openai] for
    every model that is not a reasoning model; for a reasoning-model
    name it still sends the temperature and [max_tokens] as given. *)
Theorem groq_params_vs_openai model ms t mt kw :
  (is_reasoning_model model = false ->
   groq_params model ms t mt kw = openai_params model ms t mt kw) /\
  (kw !! "temperature" = None -> kw !! "max_tokens" = None ->
   groq_params model ms t mt kw !! "temperature" = (fun q => ArgVal (YFloat q)) <$> t /\
   groq_params model ms t mt kw !! "max_tokens" = (fun n => ArgVal (YInt n)) <$> mt).
Proof.
  split.
  - intros Hr. unfold groq_params, openai_params. rewrite Hr. done.
  - intros Ht Hmt. unfold groq_params.
    rewrite !lookup_union_r by done.
    destruct t, mt; simpl; split; by simplify_map_eq.
Qed.

Lemma groq_params_vs_openai_witness :
  groq_params "llama-3.1-8b-instant" [mk_msg "user" "hi"] None (Some 64%Z) ∅ =
    openai_params "llama-3.1-8b-instant" [mk_msg "user" "hi"] None (Some 64%Z) ∅.
Proof.
  exact (proj1 (groq_params_vs_openai "llama-3.1-8b-instant" [mk_msg "user" "hi"] None
                  (Some 64%Z) ∅) eq_refl).
Defined.

(** [X20] [json_chat] on OpenAI, for keyword arguments that [chat]
    passes on whole (none named ["messages"], ["temperature"],
    ["context_strs"] or ["max_tokens"], which Python binds to named
    parameters of [json_chat] or [chat]), makes the request carry
    [response_format = {"type": "json_object"}], overriding one the
    caller passed, and keeps the caller's other keyword arguments; on
    Gemini and Groq it adds nothing. No [max_tokens] reaches the request
    ([json_chat] passes none to [chat]). *)
Theorem json_chat_request model ms t kw :
  kw !! "messages" = None -> kw !! "temperature" = None ->
  kw !! "context_strs" = None -> kw !! "max_tokens" = None ->
  let p := openai_params model ms t None (json_chat_kwargs openai kw) in
  p !! "response_format" = Some (ArgVal (YDict [("type", YStr "json_object")])) /\
  (forall k v, k <> "response_format" -> kw !! k = Some v -> p !! k = Some v) /\
  json_chat_kwargs google kw = kw /\ json_chat_kwargs groq kw = kw.
Proof.
  intros _ _ _ _ p. subst p. unfold openai_params, json_chat_kwargs.
  split; [|split; [|done]].
  - apply lookup_union_Some_l. by simplify_map_eq.
  - intros k v Hk Hv. apply lookup_union_Some_l. by simplify_map_eq.
Qed.

Lemma json_chat_request_witness :
  openai_params "gpt-4o" [] None None (json_chat_kwargs openai (∅ : gmap string Arg))
    !! "response_format" = Some (ArgVal (YDict [("type", YStr "json_object")])).
Proof.
  pose proof (json_chat_request "gpt-4o" [] None (∅ : gmap string Arg)) as H.
  refine (proj1 (H _ _ _ _)); vm_compute; reflexivity.
Defined.

(** [X21] [tool_chat] on OpenAI or Groq makes the request carry the
    tools and [tool_choice = "auto"], overriding values the caller
    passed, and keeps the caller's other keyword arguments; on Gemini the
    keyword arguments are passed on unchanged. *)
Theorem tool_chat_request provider model ms t mt tools kw :
  provider <> google ->
  let kw' := tool_chat_kwargs provider tools kw in
  openai_params model ms t mt kw' !! "tools" = Some (ArgVal (YList tools)) /\
  openai_params model ms t mt kw' !! "tool_choice" = Some (ArgVal (YStr "auto")) /\
  groq_params model ms t mt kw' !! "tools" = Some (ArgVal (YList tools)) /\
  groq_params model ms t mt kw' !! "tool_choice" = Some (ArgVal (YStr "auto")) /\
  (forall k v, k <> "tools" -> k <> "tool_choice" -> kw !! k = Some v -> kw' !! k = Some v) /\
  tool_chat_kwargs google tools kw = kw.
Proof.
  intros Hp kw'. subst kw'. unfold openai_params, groq_params.
  destruct provider; [| done |]; simpl;
    (split; [|split; [|split; [|split; [|split; [|done]]]]]);
    try (apply lookup_union_Some_l; by simplify_map_eq);
    intros k v H1 H2 Hv; by simplify_map_eq.
Qed.

Lemma tool_chat_request_witness :
  groq_params "llama-3.1-8b-instant" [mk_msg "user" "hi"] None None
    (tool_chat_kwargs groq [YStr "search"] ∅) !! "tool_choice" = Some (ArgVal (YStr "auto")).
Proof.
  exact (proj1 (proj2 (proj2 (proj2
    (tool_chat_request groq "llama-3.1-8b-instant" [mk_msg "user" "hi"] None None
       [YStr "search"] ∅ ltac:(discriminate)))))).
Defined.

(** ** Configuration lookups *)

Lemma py_split_nonempty sep s : py_split sep s <> [].
Proof.
  induction s as [|c s IH]; simpl; [done|].
  destruct (Ascii.eqb c sep); [done|]. destruct (py_split sep s); done.
Qed.

Lemma py_split_no_sep sep s :
  contains (String sep EmptyString) s = false -> py_split sep s = [s].
Proof.
  induction s as [|c s IH]; simpl; [done|].
  destruct (ascii_dec sep c) as [<-|Hne]; [destruct s; done|]. simpl. intros Hs.
  rewrite IH by exact Hs.
  replace (Ascii.eqb c sep) with false; [done|].
  symmetry. apply Ascii.eqb_neq. congruence.
Qed.

Lemma py_split_app sep s1 s2 :
  py_split sep (s1 +:+ String sep s2) = py_split sep s1 ++ py_split sep s2.
Proof.
  induction s1 as [|c s1 IH]; simpl.
  - rewrite Ascii.eqb_refl. done.
  - rewrite IH. destruct (Ascii.eqb c sep); [done|].
    pose proof (py_split_nonempty sep s1) as Hne.
    destruct (py_split sep s1); done.
Qed.

Lemma py_split_join ks :
  ks <> [] -> Forall (fun k => contains "." k = false) ks ->
  py_split "."%char (String.concat "." ks) = ks.
Proof.
  induction ks as [|k ks IH]; [done|]. intros _ Hall.
  apply Forall_cons in Hall as [Hk Hall].
  destruct ks as [|k' ks].
  - apply py_split_no_sep. exact Hk.
  - change (String.concat "." (k :: k' :: ks))
      with (k +:+ String "."%char (String.concat "." (k' :: ks))).
    rewrite py_split_app, py_split_no_sep by exact Hk.
    rewrite IH by done. done.
Qed.

(** [X22] [Config.get("k1.k2", default)] for keys without a dot reads
    [config[k1][k2]] when [config] and [config[k1]] are mappings holding
    those keys, whatever value is stored there ([None] included); any
    missing key or non-mapping on the way gives [default]. *)
Theorem config_get_two_keys config k1 k2 dflt :
  contains "." k1 = false -> contains "." k2 = false ->
  config_get config (k1 +:+ "." +:+ k2) dflt =
    match config with
    | YDict d =>
        match ydict_lookup d k1 with
        | Some (YDict d') =>
            match ydict_lookup d' k2 with Some v => v | None => dflt end
        | _ => dflt
        end
    | _ => dflt
    end.
Proof.
  intros H1 H2. unfold config_get.
  change (k1 +:+ "." +:+ k2) with (String.concat "." [k1; k2]).
  rewrite py_split_join by (done || (repeat constructor; done)).
  destruct config as [| | | | | |d]; simpl; [done..|].
  destruct (ydict_lookup d k1) as [[| | | | | |d']|]; done.
Qed.

Lemma config_get_two_keys_witness :
  get_max_retries (YDict [("retry", YDict [("max_retries", YNone)])]) = YNone.
Proof.
  exact (config_get_two_keys (YDict [("retry", YDict [("max_retries", YNone)])])
           "retry" "max_retries" (YInt 3) eq_refl eq_refl).
Defined.

(** [X23] [get_default_temperature] and [get_default_max_tokens] for a
    non-empty [task_type] without a dot use
    [defaults.by_task.<task_type>.temperature] (resp. [.max_tokens])
    when it is present and not [None]; otherwise, and for no or an empty
    [task_type], they return [defaults.temperature] (resp.
    [defaults.max_tokens]), or the built-in [0.2] (resp. [1000]) when
    that is missing. *)
Theorem get_default_by_task config task_type :
  task_type <> "" -> contains "." task_type = false ->
  get_default_temperature config (Some task_type) =
    match config_get_path ["defaults"; "by_task"; task_type; "temperature"] config YNone with
    | YNone => config_get config "defaults.temperature" (YFloat (QArith_base.Qmake 1 5))
    | v => v
    end /\
  get_default_max_tokens config (Some task_type) =
    match config_get_path ["defaults"; "by_task"; task_type; "max_tokens"] config YNone with
    | YNone => config_get config "defaults.max_tokens" (YInt 1000)
    | v => v
    end /\
  get_default_temperature config None = get_default_temperature config (Some "") /\
  get_default_max_tokens config None = get_default_max_tokens config (Some "").
Proof.
  intros Hne Hdot. unfold get_default_temperature, get_default_max_tokens, config_get.
  apply String.eqb_neq in Hne. rewrite Hne. simpl negb. cbv iota.
  change ("defaults.by_task." +:+ task_type +:+ ".temperature")
    with (String.concat "." ["defaults"; "by_task"; task_type; "temperature"]).
  change ("defaults.by_task." +:+ task_type +:+ ".max_tokens")
    with (String.concat "." ["defaults"; "by_task"; task_type; "max_tokens"]).
  rewrite !py_split_join by (done || (repeat constructor; done)).
  done.
Qed.

Lemma get_default_by_task_witness :
  let config :=
    YDict [("defaults", YDict [("temperature", YFloat (QArith_base.Qmake 3 10));
                               ("by_task", YDict [("extraction",
                                  YDict [("temperature", YNone);
                                         ("max_tokens", YInt 500)])])])] in
  get_default_temperature config (Some "extraction") = YFloat (QArith_base.Qmake 3 10) /\
  get_default_max_tokens config (Some "extraction") = YInt 500.
Proof.
  intros config.
  destruct (get_default_by_task config "extraction" ltac:(discriminate) eq_refl)
    as (H1 & H2 & _). rewrite H1, H2. split; reflexivity.
Defined.

(** ** Model routing *)

(** [X24] With a mapping [config] whose [provider] entry is a mapping,
    [pick_model] returns the model of the explicit tier, or else of the
    tier routed from the technique, when that tier is present; otherwise
    the ["general"] model; a missing ["general"] raises [KeyError], whose
    message is ['general']. *)
Theorem pick_model_resolution d pd provider technique tier config_path :
  ydict_lookup d provider = Some (YDict pd) ->
  let t := match tier with Some t => t | None => route_tier technique end in
  pick_model (YDict d) provider technique tier config_path =
    match ydict_lookup pd t with
    | Some m => inr m
    | None =>
        match ydict_lookup pd "general" with
        | Some m => inr m
        | None => inl (PyExc "KeyError" "'general'")
        end
    end.
Proof.
  intros Hp t. subst t. unfold pick_model. simpl. rewrite Hp. simpl.
  destruct (ydict_lookup pd (match tier with Some t => t | None => route_tier technique end))
    eqn:E; simpl; rewrite ?E; done.
Qed.

Lemma pick_model_resolution_witness :
  pick_model (YDict [("openai", YDict [("general", YStr "gpt-4o-mini");
                                       ("reason", YStr "o3-mini")])])
    "openai" "CoT_reasoning" None "config/models.yaml" = inr (YStr "o3-mini").
Proof.
  rewrite (pick_model_resolution
             [("openai", YDict [("general", YStr "gpt-4o-mini"); ("reason", YStr "o3-mini")])]
             [("general", YStr "gpt-4o-mini"); ("reason", YStr "o3-mini")]
             "openai" "CoT_reasoning" None "config/models.yaml" eq_refl).
  reflexivity.
Defined.

(** [X25] [pick_model] raises [KeyError("Provider '<p>' not found in
    <config_path>")] for a provider missing from a mapping [config];
    [TypeError] when the provider's entry is not a mapping; and
    [TypeError] when the loaded document is not a mapping, list or
    string (an empty YAML file loads as [None]). *)
Theorem pick_model_errors config provider technique tier config_path :
  (forall d, config = YDict d -> ydict_lookup d provider = None ->
     pick_model config provider technique tier config_path =
       inl (PyExc "KeyError"
              ("Provider '" +:+ provider +:+ "' not found in " +:+ config_path))) /\
  (forall d v, config = YDict d -> ydict_lookup d provider = Some v ->
     (forall pd, v <> YDict pd) ->
     pick_model config provider technique tier config_path = inl type_error) /\
  match config with
  | YDict _ | YList _ | YStr _ => True
  | _ => pick_model config provider technique tier config_path = inl type_error
  end.
Proof.
  split; [|split].
  - intros d -> Hp. unfold pick_model. simpl. rewrite Hp. done.
  - intros d v -> Hp Hv. unfold pick_model. simpl. rewrite Hp. simpl.
    destruct v as [| | | | | |pd]; simpl; try done;
      [..|by destruct (Hv pd eq_refl)]; repeat case_match; done.
  - destruct config; done.
Qed.

Lemma pick_model_errors_witness :
  pick_model (YDict [("openai", YStr "gpt-4o")]) "openai" "cot" None "config/models.yaml"
    = inl type_error.
Proof.
  exact (proj1 (proj2 (pick_model_errors (YDict [("openai", YStr "gpt-4o")])
                         "openai" "cot" None "config/models.yaml"))
           _ (YStr "gpt-4o") eq_refl eq_refl ltac:(discriminate)).
Defined.

(** [X26] The routing of [pick_model] without an explicit tier ignores
    the case of the technique. *)
Theorem pick_model_case_insensitive config provider technique config_path :
  pick_model config provider (lower technique) None config_path =
  pick_model config provider technique None config_path.
Proof. unfold pick_model, route_tier. rewrite lower_idem. done. Qed.

Lemma prefix_refl s : String.prefix s s = true.
Proof.
  induction s as [|a s IH]; simpl; [done|].
  destruct (ascii_dec a a); done.
Qed.

Lemma contains_refl s : contains s s = true.
Proof. destruct s as [|c s]; [done|]. cbn [contains]. rewrite prefix_refl. done. Qed.

Lemma any_keyword_in_strs kws tl :
  any_keyword_in (map YStr kws) tl = inr (existsb (fun k => contains k tl) kws).
Proof.
  induction kws as [|k kws IH]; simpl; [done|].
  destruct (contains k tl); done.
Qed.

(** [X27] When the configured reasoning techniques are a list of strings
    (the default is [["cot", "tot"]]), [should_use_reasoning_model]
    answers whether auto-routing is on (truthy, on by default) and one of
    the techniques occurs in the lower-cased technique; the exact-match
    test never changes the answer. *)
Theorem should_use_reasoning_model_keywords config technique kws :
  get_reasoning_techniques config = YList (map YStr kws) ->
  should_use_reasoning_model config technique =
    inr (py_truthy (should_auto_route_reasoning config) &&
         existsb (fun k => contains k (lower technique)) kws).
Proof.
  intros Hk. unfold should_use_reasoning_model. rewrite Hk.
  destruct (py_truthy (should_auto_route_reasoning config)); simpl; [|done].
  destruct (existsb _ (map YStr kws)) eqn:E.
  - apply existsb_exists in E as [x [Hin Hx]].
    apply in_map_iff in Hin as [k [<- Hk']].
    apply String.eqb_eq in Hx as ->.
    f_equal. symmetry. apply existsb_exists. exists (lower technique).
    split; [done|]. apply contains_refl.
  - apply any_keyword_in_strs.
Qed.

Lemma should_use_reasoning_model_keywords_witness :
  should_use_reasoning_model (YDict []) "ToT_search" = inr true.
Proof.
  rewrite (should_use_reasoning_model_keywords (YDict []) "ToT_search" ["cot"; "tot"] eq_refl).
  reflexivity.
Defined.

(** [X28] When the configured reasoning techniques are a single string
    [s] instead of a list, [should_use_reasoning_model] (with
    auto-routing on) answers whether the lower-cased technique occurs in
    [s] or any single character of [s] occurs in it: with ["cot"], any
    technique containing a [c], an [o] or a [t] is routed to a reasoning
    model. *)
Theorem should_use_reasoning_model_string config technique s :
  get_reasoning_techniques config = YStr s ->
  should_use_reasoning_model config technique =
    inr (py_truthy (should_auto_route_reasoning config) &&
         (contains (lower technique) s ||
          existsb (fun k => contains k (lower technique))
            (map (fun c => String c EmptyString) (String.list_ascii_of_string s)))).
Proof.
  intros Hs. unfold should_use_reasoning_model. rewrite Hs.
  destruct (py_truthy (should_auto_route_reasoning config)); simpl; [|done].
  destruct (contains (lower technique) s); simpl; [done|].
  rewrite <- (map_map (fun c => String c EmptyString) YStr).
  apply any_keyword_in_strs.
Qed.

Lemma should_use_reasoning_model_string_witness :
  should_use_reasoning_model
    (YDict [("models", YDict [("reasoning_techniques", YStr "cot")])]) "chat" = inr true.
Proof.
  rewrite (should_use_reasoning_model_string
             (YDict [("models", YDict [("reasoning_techniques", YStr "cot")])])
             "chat" "cot" eq_refl).
  reflexivity.
Defined.

(** [X29] With auto-routing off (a falsy [models.auto_routing])
    [should_use_reasoning_model] answers [False] whatever the techniques
    are; with it on, a techniques value that is neither a list, a string
    nor a mapping (a number, a boolean or [None]) raises [TypeError]. *)
Theorem should_use_reasoning_model_guard config technique :
  (py_truthy (should_auto_route_reasoning config) = false ->
   should_use_reasoning_model config technique = inr false) /\
  (py_truthy (should_auto_route_reasoning config) = true ->
   match get_reasoning_techniques config with
   | YList _ | YStr _ | YDict _ => True
   | _ => should_use_reasoning_model config technique = inl type_error
   end).
Proof.
  unfold should_use_reasoning_model. split; intros Ha; rewrite Ha; simpl; [done|].
  destruct (get_reasoning_techniques config); done.
Qed.

Lemma should_use_reasoning_model_guard_witness :
  should_use_reasoning_model
    (YDict [("models", YDict [("auto_routing", YBool false)])]) "cot" = inr false.
Proof.
  exact (proj1 (should_use_reasoning_model_guard
                  (YDict [("models", YDict [("auto_routing", YBool false)])]) "cot") eq_refl).
Defined.
